(** * Kennel Python plugin SDK: the module runner of [pkg/sdk/python/module.py]

    A shallow embedding of the plugin runtime harness (the value classes
    [Request], [Response], [Event], [HealthStatus], the abstract class
    [Module] with its subclass [BaseModule], and [ModuleRunner]) together
    with the properties of its dispatcher, its lifecycle and its shutdown
    paths.

    Conventions of the embedding.
    - A Python [str] is a [string]; each character stands for one code
      point below 256.
    - A Python object that reaches the runner is a [pyval]; instances of
      classes that [json.dumps] does not know are [PObject].
    - [time.time()] returns a float; it is modelled by an exact rational.
    - [json.loads] belongs to the Python standard library, not to the SDK:
      the runner is parameterised by it.
    - Log records go to the standard error stream through [logger.py] and
      are not part of the protocol; a call of a logger method is kept only
      for its control effect (an attribute that [Logger] does not define
      raises [AttributeError]). *)

From Stdlib Require Import String Ascii List Bool ZArith QArith Lia Lqa.
Import ListNotations.
Local Open Scope string_scope.
Local Open Scope list_scope.

Set Implicit Arguments.
Set Warnings "-register-all".

(** ** Python strings *)

Module PyStr.

(** [str.isspace] on code points below 256. *)
Definition isspace (c : ascii) : bool :=
  let n := nat_of_ascii c in
  ((9 <=? n) && (n <=? 13) || (28 <=? n) && (n <=? 32)
   || (n =? 133) || (n =? 160))%nat.

Fixpoint lstrip (s : string) : string :=
  match s with
  | EmptyString => EmptyString
  | String c r => if isspace c then lstrip r else s
  end.

Fixpoint rstrip (s : string) : string :=
  match s with
  | EmptyString => EmptyString
  | String c r =>
      match rstrip r with
      | EmptyString => if isspace c then EmptyString else String c EmptyString
      | r' => String c r'
      end
  end.

(** [s.strip()] *)
Definition strip (s : string) : string := rstrip (lstrip s).

(** [s.startswith(p)] *)
Fixpoint startswith (s p : string) {struct p} : bool :=
  match p with
  | EmptyString => true
  | String c p' =>
      match s with
      | EmptyString => false
      | String d s' => Ascii.eqb c d && startswith s' p'
      end
  end.

(** [s[n:]] *)
Fixpoint drop (n : nat) (s : string) : string :=
  match n, s with
  | O, _ => s
  | S n', String _ r => drop n' r
  | S _, EmptyString => EmptyString
  end.

(** [p in s] *)
Fixpoint contains (s p : string) : bool :=
  startswith s p ||
  match s with
  | EmptyString => false
  | String _ r => contains r p
  end.

End PyStr.

(** ** Python values *)

Inductive pyval : Type :=
| PNone
| PBool (b : bool)
| PInt (z : Z)
| PFloat (q : Q)
| PStr (s : string)
| PList (l : list pyval)
| PDict (d : list (string * pyval))
| PObject (cls : string).

Definition pydict := list (string * pyval).

(** [type(v).__name__] *)
Definition type_name (v : pyval) : string :=
  match v with
  | PNone => "NoneType"
  | PBool _ => "bool"
  | PInt _ => "int"
  | PFloat _ => "float"
  | PStr _ => "str"
  | PList _ => "list"
  | PDict _ => "dict"
  | PObject cls => cls
  end.

(** Truth value of an object, as [or], [if] and [not] test it. *)
Definition truthy (v : pyval) : bool :=
  match v with
  | PNone => false
  | PBool b => b
  | PInt z => negb (z =? 0)%Z
  | PFloat q => negb (Qeq_bool q 0)
  | PStr s => negb (s =? "")
  | PList l => match l with [] => false | _ => true end
  | PDict d => match d with [] => false | _ => true end
  | PObject _ => true
  end.

(** [a or b] *)
Definition py_or (a b : pyval) : pyval := if truthy a then a else b.

(** [v == s] for a string literal [s]. *)
Definition eq_str (v : pyval) (s : string) : bool :=
  match v with
  | PStr t => t =? s
  | _ => false
  end.

(** [int(x)] on a float: truncation towards zero. *)
Definition int_of_float (q : Q) : Z := Z.quot (Qnum q) (Z.pos (Qden q)).

(** [int(t * 1000)] *)
Definition millis (t : Q) : Z := int_of_float (t * 1000).

Fixpoint lookup (k : string) (d : pydict) : option pyval :=
  match d with
  | [] => None
  | (k', v) :: r => if k' =? k then Some v else lookup k r
  end.

(** [k in d] *)
Definition has_key (k : string) (d : pydict) : bool :=
  match lookup k d with Some _ => true | None => false end.

(** ** Exceptions and results *)

(** [Exception msg] is an instance of any subclass of [Exception] whose
    [str] is [msg]; the other two derive from [BaseException] only. *)
Inductive exn : Type :=
| Exception (msg : string)
| KeyboardInterrupt
| SystemExit (code : Z).

(** Result of code that returns or raises an [Exception]. *)
Inductive result (A : Type) : Type :=
| Ok (a : A)
| Err (msg : string).
Arguments Ok {A} a.
Arguments Err {A} msg.

Definition attribute_error (v : pyval) (attr : string) : string :=
  "'" ++ type_name v ++ "' object has no attribute '" ++ attr ++ "'".

(** [obj.get(key, default)]: only a dict has the method. *)
Definition py_get (obj : pyval) (key : string) (default : pyval) : result pyval :=
  match obj with
  | PDict d => Ok (match lookup key d with Some v => v | None => default end)
  | _ => Err (attribute_error obj "get")
  end.

(** ** [json.dumps] *)

(** Class name of the first object, in traversal order, that the default
    encoder rejects. *)
Fixpoint first_unserializable (v : pyval) : option string :=
  match v with
  | PObject cls => Some cls
  | PList l =>
      (fix go (l : list pyval) : option string :=
         match l with
         | [] => None
         | x :: r =>
             match first_unserializable x with
             | Some c => Some c
             | None => go r
             end
         end) l
  | PDict d =>
      (fix go (d : pydict) : option string :=
         match d with
         | [] => None
         | (_, x) :: r =>
             match first_unserializable x with
             | Some c => Some c
             | None => go r
             end
         end) d
  | _ => None
  end.

(** [json.dumps(v)]: the text is determined by [v], which is what the
    frame keeps; a value outside JSON raises [TypeError]. *)
Definition json_dumps (v : pyval) : result pyval :=
  match first_unserializable v with
  | None => Ok v
  | Some cls => Err ("Object of type " ++ cls ++ " is not JSON serializable")
  end.

(** Values that [json.loads] can return. *)
Definition is_json (v : pyval) : bool :=
  match first_unserializable v with None => true | Some _ => false end.

Definition jsonval : Type := { v : pyval | is_json v = true }.

Definition rbind {A B : Type} (r : result A) (k : A -> result B) : result B :=
  match r with
  | Ok a => k a
  | Err msg => Err msg
  end.

(** ** The value classes of [module.py] *)

Record ModuleInfo : Type := {
  ModuleInfo_id : pyval;
  ModuleInfo_name : pyval;
  ModuleInfo_version : pyval;
  ModuleInfo_description : pyval;
  ModuleInfo_author : pyval;
  ModuleInfo_license : pyval;
  ModuleInfo_capabilities : pyval;
  ModuleInfo_supported_platforms : pyval;
  ModuleInfo_language : pyval
}.

(** [ModuleInfo.__init__] *)
Definition ModuleInfo_init
    (id name version description author license capabilities
     supported_platforms : pyval) : ModuleInfo :=
  {| ModuleInfo_id := id;
     ModuleInfo_name := name;
     ModuleInfo_version := version;
     ModuleInfo_description := description;
     ModuleInfo_author := author;
     ModuleInfo_license := license;
     ModuleInfo_capabilities := py_or capabilities (PList []);
     ModuleInfo_supported_platforms := py_or supported_platforms (PList []);
     ModuleInfo_language := PStr "python" |}.

(** [ModuleInfo.to_dict] *)
Definition ModuleInfo_to_dict (i : ModuleInfo) : pyval :=
  PDict [ ("id", ModuleInfo_id i);
          ("name", ModuleInfo_name i);
          ("version", ModuleInfo_version i);
          ("description", ModuleInfo_description i);
          ("author", ModuleInfo_author i);
          ("license", ModuleInfo_license i);
          ("capabilities", ModuleInfo_capabilities i);
          ("supported_platforms", ModuleInfo_supported_platforms i);
          ("language", ModuleInfo_language i) ].

Record Request : Type := {
  Request_id : pyval;
  Request_action : pyval;
  Request_params : pyval;
  Request_metadata : pyval;
  Request_timeout : pyval
}.

(** [Request.__init__] *)
Definition Request_init (id action params metadata timeout : pyval) : Request :=
  {| Request_id := id;
     Request_action := action;
     Request_params := py_or params (PDict []);
     Request_metadata := py_or metadata (PDict []);
     Request_timeout := timeout |}.

(** [Request.from_dict] *)
Definition Request_from_dict (data : pyval) : result Request :=
  rbind (py_get data "id" (PStr "")) (fun id =>
  rbind (py_get data "action" (PStr "")) (fun action =>
  rbind (py_get data "params" (PDict [])) (fun params =>
  rbind (py_get data "metadata" (PDict [])) (fun metadata =>
  rbind (py_get data "timeout" (PInt 30000)) (fun timeout =>
  Ok (Request_init id action params metadata timeout)))))).

Record Response : Type := {
  Response_id : pyval;
  Response_success : pyval;
  Response_data : pyval;
  Response_error : pyval;
  Response_metadata : pyval
}.

(** [Response.__init__]; an argument left out is passed as its default
    ([True] for [success], [None] for the others). *)
Definition Response_init (id success data error metadata : pyval) : Response :=
  {| Response_id := id;
     Response_success := success;
     Response_data := py_or data (PDict []);
     Response_error := error;
     Response_metadata := py_or metadata (PDict []) |}.

(** [Response.to_dict] *)
Definition Response_to_dict (r : Response) : pydict :=
  let result :=
    [ ("id", Response_id r);
      ("success", Response_success r);
      ("data", Response_data r);
      ("metadata", Response_metadata r) ] in
  if truthy (Response_error r)
  then result ++ [("error", Response_error r)]
  else result.

Record Event : Type := {
  Event_id : pyval;
  Event_type : pyval;
  Event_source : pyval;
  Event_data : pyval;
  Event_metadata : pyval;
  Event_timestamp : pyval
}.

(** [Event.to_dict] *)
Definition Event_to_dict (e : Event) : pyval :=
  PDict [ ("id", Event_id e);
          ("type", Event_type e);
          ("source", Event_source e);
          ("data", Event_data e);
          ("metadata", Event_metadata e);
          ("timestamp", Event_timestamp e) ].

Record HealthStatus : Type := {
  HealthStatus_status : pyval;
  HealthStatus_details : pyval;
  HealthStatus_timestamp : pyval
}.

(** [HealthStatus.to_dict] *)
Definition HealthStatus_to_dict (h : HealthStatus) : pyval :=
  PDict [ ("status", HealthStatus_status h);
          ("details", HealthStatus_details h);
          ("timestamp", HealthStatus_timestamp h) ].

(** The uptime a health status reports, when it has one. *)
Definition uptime_of (h : HealthStatus) : option Q :=
  match HealthStatus_details h with
  | PDict [(_, PFloat u)] => Some u
  | _ => None
  end.

(** ** The module instance and its operations *)

(** Attributes that [Module.__init__] gives every instance ([config_helper]
    is a view of [config]; [logger] has no state of interest), and the
    attributes [ext] a subclass adds. *)
Record Module_attrs (X : Type) : Type := {
  config : pyval;
  start_time : Q;
  ext : X
}.

(** What a method of the plugin can read and change: the instance, and the
    wall clock, of which [now] counts the readings taken so far. *)
Record pstate (X : Type) : Type := {
  self : Module_attrs X;
  now : nat
}.

(** A method of the plugin: it returns or raises an [Exception]. *)
Definition Op (X A : Type) : Type := pstate X -> result A * pstate X.

(** The abstract class [Module]: the six abstract methods, and
    [check_health], for which the base class has an implementation. *)
Class Module (X : Type) : Type := {
  init : pyval -> Op X unit;
  start : Op X unit;
  stop : Op X unit;
  get_info : Op X ModuleInfo;
  handle_request : Request -> Op X Response;
  handle_event : Event -> Op X bool;
  check_health : Op X HealthStatus
}.

Definition set_self {X} (s : pstate X) (m : Module_attrs X) : pstate X :=
  {| self := m; now := now s |}.

Definition tick {X} (s : pstate X) : pstate X :=
  {| self := self s; now := S (now s) |}.

(** ** Standard streams, and the record of calls *)

(** What the blocking [sys.stdin.readline()] of the loop can meet: a line
    written by the host, or the delivery of SIGINT or SIGTERM while the
    read is pending. Once the list is used up the stream is at its end. *)
Inductive stdin_event : Type :=
| Line (s : string)
| Signal (signum : Z).

(** One line [tag:json.dumps(body)] printed on the standard output. *)
Record frame : Type := {
  tag : string;
  body : pyval
}.

(** Calls of the module's methods made by the runner, kept to state how
    often and in which order they happen. *)
Inductive call : Type :=
| CInit (cfg : pyval)
| CStart
| CStop
| CGetInfo
| CHandleRequest (r : Request)
| CHandleEvent (e : Event)
| CCheckHealth.

Definition is_stop (c : call) : bool :=
  match c with CStop => true | _ => false end.

(** Number of times [stop()] was entered. *)
Definition stop_count (cs : list call) : nat := length (filter is_stop cs).

Definition is_handler (c : call) : bool :=
  match c with
  | CHandleRequest _ | CHandleEvent _ | CCheckHealth => true
  | _ => false
  end.

Record world (X : Type) : Type := {
  plug : pstate X;
  stdin : list stdin_event;
  stdout : list frame;
  calls : list call
}.

Definition set_plug {X} (w : world X) (p : pstate X) : world X :=
  {| plug := p; stdin := stdin w; stdout := stdout w; calls := calls w |}.

Definition set_stdin {X} (w : world X) (i : list stdin_event) : world X :=
  {| plug := plug w; stdin := i; stdout := stdout w; calls := calls w |}.

Definition add_stdout {X} (w : world X) (f : frame) : world X :=
  {| plug := plug w; stdin := stdin w; stdout := stdout w ++ [f];
     calls := calls w |}.

Definition add_call {X} (w : world X) (c : call) : world X :=
  {| plug := plug w; stdin := stdin w; stdout := stdout w;
     calls := calls w ++ [c] |}.

(** ** The monad of the runner's code *)

Inductive outcome (A : Type) : Type :=
| Ret (a : A)
| Raise (e : exn).
Arguments Ret {A} a.
Arguments Raise {A} e.

(** A piece of the runner: from a world it returns, raises, or ([None])
    is still running when the fuel of a loop is used up. *)
Definition Py (X A : Type) : Type := world X -> option (outcome A * world X).

Definition ret {X A} (a : A) : Py X A := fun w => Some (Ret a, w).

Definition raise {X A} (e : exn) : Py X A := fun w => Some (Raise e, w).

Definition bind {X A B} (c : Py X A) (k : A -> Py X B) : Py X B :=
  fun w =>
    match c w with
    | None => None
    | Some (Ret a, w') => k a w'
    | Some (Raise e, w') => Some (Raise e, w')
    end.

Notation "x <- c1 ;; c2" := (bind c1 (fun x => c2))
  (at level 61, c1 at next level, right associativity).
Notation "c1 ;; c2" := (bind c1 (fun _ => c2))
  (at level 61, right associativity).

(** [try: body except ...]: [handler] gives the clause that matches the
    exception, if one does. *)
Definition try_except {X A} (body : Py X A) (handler : exn -> option (Py X A))
  : Py X A :=
  fun w =>
    match body w with
    | Some (Raise e, w') =>
        match handler e with
        | Some h => h w'
        | None => Some (Raise e, w')
        end
    | r => r
    end.

(** [except Exception as e:] *)
Definition except_Exception {X A} (h : string -> Py X A) (e : exn)
  : option (Py X A) :=
  match e with
  | Exception msg => Some (h msg)
  | _ => None
  end.

(** [try: body finally: fin] *)
Definition try_finally {X A} (body : Py X A) (fin : Py X unit) : Py X A :=
  fun w =>
    match body w with
    | None => None
    | Some (r, w') =>
        match fin w' with
        | None => None
        | Some (Ret _, w'') => Some (r, w'')
        | Some (Raise e, w'') => Some (Raise e, w'')
        end
    end.

(** Code that cannot touch the streams, run inside the runner. *)
Definition lift_result {X A} (r : result A) : Py X A :=
  match r with
  | Ok a => ret a
  | Err msg => raise (Exception msg)
  end.

(** [sys.exit(code)] *)
Definition sys_exit {X A} (code : Z) : Py X A := raise (SystemExit code).

(** [print(f"{tag}:{json}")] followed by [sys.stdout.flush()] *)
Definition print {X} (tag : string) (json : pyval) : Py X unit :=
  fun w => Some (Ret tt, add_stdout w {| tag := tag; body := json |}).

(** A call [self.module.m(...)] *)
Definition invoke {X A} (c : call) (op : Op X A) : Py X A :=
  fun w =>
    let w1 := add_call w c in
    let (r, p) := op (plug w1) in
    match r with
    | Ok a => Some (Ret a, set_plug w1 p)
    | Err msg => Some (Raise (Exception msg), set_plug w1 p)
    end.

(** ** [logger.py] *)

(** The attributes of a [Logger]: the two set by [__init__], then its
    methods. *)
Definition Logger_attributes : list string :=
  [ "name"; "logger";
    "trace"; "debug"; "info"; "warn"; "error"; "_log";
    "with_fields"; "named"; "get_level"; "set_level"; "set_output" ].

(** [self.logger.meth(...)]: the attribute is looked up first. *)
Definition Logger_call {X} (meth : string) : Py X unit :=
  if existsb (String.eqb meth) Logger_attributes
  then ret tt
  else raise (Exception ("'Logger' object has no attribute '" ++ meth ++ "'")).

(** ** The wall clock *)

Section Clock.

(** [time_source k] is what the [k]-th call of [time.time()] in the
    process returns. *)
Variable time_source : nat -> Q.

(** Code that only reads the clock, and returns or raises. *)
Definition Clk (A : Type) : Type := nat -> result A * nat.

Definition cret {A} (a : A) : Clk A := fun n => (Ok a, n).

Definition cbind {A B} (c : Clk A) (k : A -> Clk B) : Clk B :=
  fun n =>
    match c n with
    | (Ok a, n') => k a n'
    | (Err msg, n') => (Err msg, n')
    end.

Definition clift {A} (r : result A) : Clk A := fun n => (r, n).

(** [time.time()] *)
Definition time_time : Clk Q := fun n => (Ok (time_source n), S n).

Notation "x <~ c1 ;; c2" := (cbind c1 (fun x => c2))
  (at level 61, c1 at next level, right associativity).

(** [timestamp or int(time.time() * 1000)] *)
Definition timestamp_or_now (timestamp : pyval) : Clk pyval :=
  if truthy timestamp then cret timestamp
  else t <~ time_time;; cret (PInt (millis t)).

(** [Event.__init__] *)
Definition Event_init (id type source data metadata timestamp : pyval)
  : Clk Event :=
  ts <~ timestamp_or_now timestamp;;
  cret {| Event_id := id;
          Event_type := type;
          Event_source := source;
          Event_data := py_or data (PDict []);
          Event_metadata := py_or metadata (PDict []);
          Event_timestamp := ts |}.

(** [Event.from_dict]; the default of the last [get] is computed before
    the lookup. *)
Definition Event_from_dict (data : pyval) : Clk Event :=
  id <~ clift (py_get data "id" (PStr ""));;
  type <~ clift (py_get data "type" (PStr ""));;
  source <~ clift (py_get data "source" (PStr ""));;
  data' <~ clift (py_get data "data" (PDict []));;
  metadata <~ clift (py_get data "metadata" (PDict []));;
  t <~ time_time;;
  timestamp <~ clift (py_get data "timestamp" (PInt (millis t)));;
  Event_init id type source data' metadata timestamp.

(** [HealthStatus.__init__] *)
Definition HealthStatus_init (status details timestamp : pyval)
  : Clk HealthStatus :=
  ts <~ timestamp_or_now timestamp;;
  cret {| HealthStatus_status := status;
          HealthStatus_details := py_or details (PDict []);
          HealthStatus_timestamp := ts |}.

(** Clock code inside a method of the plugin, and inside the runner. *)
Definition Op_of_clk {X A} (c : Clk A) : Op X A :=
  fun s => let (r, n) := c (now s) in (r, {| self := self s; now := n |}).

Definition Py_of_clk {X A} (c : Clk A) : Py X A :=
  fun w =>
    let (r, n) := c (now (plug w)) in
    let w' := set_plug w {| self := self (plug w); now := n |} in
    match r with
    | Ok a => Some (Ret a, w')
    | Err msg => Some (Raise (Exception msg), w')
    end.

(** *** The base class [Module] *)

(** Body of [Module.init], reached through [super().init(config)]. *)
Definition Module_init {X} (cfg : pyval) : Op X unit :=
  fun s =>
    (Ok tt, set_self s {| config := cfg;
                          start_time := start_time (self s);
                          ext := ext (self s) |}).

(** Body of [Module.start], reached through [super().start()]. *)
Definition Module_start {X} : Op X unit :=
  fun s =>
    (Ok tt, tick (set_self s {| config := config (self s);
                                start_time := time_source (now s);
                                ext := ext (self s) |})).

(** [Module.check_health], the implementation a subclass inherits. *)
Definition Module_check_health {X} : Op X HealthStatus :=
  fun s =>
    Op_of_clk
      (t1 <~ time_time;;
       t2 <~ time_time;;
       HealthStatus_init
         (PStr "healthy")
         (PDict [("uptime", PFloat (t1 - start_time (self s)))])
         (PInt (millis t2))) s.

(** *** [BaseModule] *)

Record BaseModule_attrs : Type := {
  BaseModule_id : pyval;
  BaseModule_name : pyval;
  BaseModule_version : pyval;
  BaseModule_description : pyval;
  BaseModule_author : pyval;
  BaseModule_license : pyval;
  BaseModule_capabilities : pyval;
  BaseModule_supported_platforms : pyval
}.

(** The text of the f-string in [BaseModule.handle_request], as a
    function of [request.action]. *)
Variable not_implemented_message : pyval -> string.

(** [BaseModule.stop] reads the clock for the uptime it logs. *)
Definition BaseModule_stop : Op BaseModule_attrs unit :=
  Op_of_clk (_ <~ time_time;; cret tt).

Definition BaseModule_get_info : Op BaseModule_attrs ModuleInfo :=
  fun s =>
    let a := ext (self s) in
    (Ok (ModuleInfo_init (BaseModule_id a) (BaseModule_name a)
           (BaseModule_version a) (BaseModule_description a)
           (BaseModule_author a) (BaseModule_license a)
           (BaseModule_capabilities a) (BaseModule_supported_platforms a)),
     s).

Definition BaseModule_handle_request (request : Request)
  : Op BaseModule_attrs Response :=
  fun s =>
    (Ok (Response_init
           (Request_id request)
           (PBool false)
           PNone
           (PDict [("code", PStr "not_implemented");
                   ("message",
                    PStr (not_implemented_message (Request_action request)))])
           PNone),
     s).

Definition BaseModule_handle_event (event : Event)
  : Op BaseModule_attrs bool :=
  fun s => (Ok false, s).

#[export] Instance BaseModule : Module BaseModule_attrs := {
  init := Module_init;
  start := Module_start;
  stop := BaseModule_stop;
  get_info := BaseModule_get_info;
  handle_request := BaseModule_handle_request;
  handle_event := BaseModule_handle_event;
  check_health := Module_check_health
}.

End Clock.

(** ** [ModuleRunner] *)

Inductive loop_step : Type :=
| Continue
| Break.

Section ModuleRunner.

Variable time_source : nat -> Q.

(** [json.loads]: the decoded value, or the text of the [JSONDecodeError]. *)
Variable json_loads : string -> result jsonval.

(** [os.environ] *)
Variable environ : list (string * string).

Context {X : Type} {module : Module X}.

(** [os.environ.get(key, default)] *)
Definition environ_get (key default : string) : string :=
  match find (fun kv => fst kv =? key) environ with
  | Some kv => snd kv
  | None => default
  end.

Definition send_response (response : Response) : Py X unit :=
  response_json <- lift_result (json_dumps (PDict (Response_to_dict response)));;
  print "KENNEL_RESPONSE" response_json.

Definition send_event_response (event_id : pyval) (success : bool)
  : Py X unit :=
  let response := PDict [("event_id", event_id); ("success", PBool success)] in
  response_json <- lift_result (json_dumps response);;
  print "KENNEL_EVENT_RESPONSE" response_json.

Definition send_health_response (health : HealthStatus) : Py X unit :=
  let response := HealthStatus_to_dict health in
  response_json <- lift_result (json_dumps response);;
  print "KENNEL_HEALTH_RESPONSE" response_json.

Definition send_error_response (error : string) : Py X unit :=
  let response := PDict [("error", PStr error)] in
  response_json <- lift_result (json_dumps response);;
  print "KENNEL_ERROR" response_json.

Definition handle_command (command_json : string) : Py X unit :=
  try_except
    (command <- lift_result (json_loads command_json);;
     command_type <- lift_result (py_get (proj1_sig command) "type" (PStr ""));;
     command_data <- lift_result (py_get (proj1_sig command) "data" (PDict []));;
     if eq_str command_type "request" then
       request <- lift_result (Request_from_dict command_data);;
       Logger_call "info";;
       response <- invoke (CHandleRequest request) (handle_request request);;
       send_response response
     else if eq_str command_type "event" then
       event <- Py_of_clk (Event_from_dict time_source command_data);;
       Logger_call "info";;
       success <- invoke (CHandleEvent event) (handle_event event);;
       send_event_response (Event_id event) success
     else if eq_str command_type "health_check" then
       Logger_call "info";;
       health <- invoke CCheckHealth check_health;;
       send_health_response health
     else
       Logger_call "warning")
    (except_Exception (fun e =>
       Logger_call "error";;
       Logger_call "error";;
       send_error_response e)).

(** [_handle_signal]: it ends in [sys.exit(0)] and so never returns. *)
Definition _handle_signal {A} (signum : Z) : Py X A :=
  Logger_call "info";;
  try_except
    (invoke CStop stop)
    (except_Exception (fun _ => Logger_call "error"));;
  sys_exit 0.

(** [sys.stdin.readline()], with the handlers that [run] installs for
    SIGINT and SIGTERM: a signal that arrives during the read runs
    [_handle_signal] in the reading thread. At the end of the stream
    the call returns the empty string. *)
Definition readline : Py X string :=
  fun w =>
    match stdin w with
    | [] => Some (Ret "", w)
    | Line s :: rest => Some (Ret s, set_stdin w rest)
    | Signal signum :: rest => _handle_signal signum (set_stdin w rest)
    end.

(** [while True: body], with one unit of fuel for each iteration. *)
Fixpoint while_true (fuel : nat) (body : Py X loop_step) : Py X unit :=
  fun w =>
    match fuel with
    | O => None
    | S fuel' =>
        match body w with
        | None => None
        | Some (Ret Continue, w') => while_true fuel' body w'
        | Some (Ret Break, w') => Some (Ret tt, w')
        | Some (Raise e, w') => Some (Raise e, w')
        end
    end.

(** One iteration of the loop of [command_loop]. *)
Definition loop_body : Py X loop_step :=
  raw <- readline;;
  let line := PyStr.strip raw in
  if line =? "" then ret Continue
  else if PyStr.startswith line "KENNEL_COMMAND:" then
    let command_json := PyStr.drop (String.length "KENNEL_COMMAND:") line in
    handle_command command_json;;
    ret Continue
  else if line =? "KENNEL_STOP" then
    Logger_call "info";;
    ret Break
  else ret Continue.

Definition command_loop (fuel : nat) : Py X unit :=
  Logger_call "info";;
  try_finally
    (try_except
       (while_true fuel loop_body)
       (fun e =>
          match e with
          | KeyboardInterrupt => Some (Logger_call "info")
          | Exception _ => Some (Logger_call "error";; Logger_call "error")
          | SystemExit _ => None
          end))
    (Logger_call "info";;
     try_except
       (invoke CStop stop)
       (except_Exception (fun _ =>
          Logger_call "error";;
          Logger_call "error"))).

Definition run (fuel : nat) : Py X unit :=
  Logger_call "info";;
  let plugin_id := environ_get "KENNEL_PLUGIN_ID" "" in
  let config_json := environ_get "KENNEL_PLUGIN_CONFIG" "{}" in
  try_except
    (cfg <- lift_result (json_loads config_json);;
     Logger_call "info";;
     invoke (CInit (proj1_sig cfg)) (init (proj1_sig cfg));;
     Logger_call "info";;
     invoke CStart start;;
     info <- invoke CGetInfo get_info;;
     let ready_info :=
       PDict [("status", PStr "ready");
              ("plugin_id", PStr plugin_id);
              ("info", ModuleInfo_to_dict info)] in
     ready_json <- lift_result (json_dumps ready_info);;
     print "KENNEL_PLUGIN_READY" ready_json;;
     command_loop fuel)
    (except_Exception (fun e =>
       Logger_call "error";;
       Logger_call "error";;
       let error_info :=
         PDict [("status", PStr "error");
                ("plugin_id", PStr plugin_id);
                ("error", PStr e)] in
       error_json <- lift_result (json_dumps error_info);;
       print "KENNEL_PLUGIN_ERROR" error_json;;
       sys_exit 1)).

(** Exit status of the process whose last statement is [run_module]:
    0 when [run] returns, the code of a [SystemExit], 1 for an
    exception nobody caught. *)
Definition exit_status (r : outcome unit) : option Z :=
  match r with
  | Ret _ => Some 0%Z
  | Raise (SystemExit code) => Some code
  | Raise (Exception _) => Some 1%Z
  | Raise KeyboardInterrupt => None
  end.

(** *** Notions used to state the properties *)

(** The frame of [send_response]. *)
Definition response_frame (response : Response) : frame :=
  {| tag := "KENNEL_RESPONSE"; body := PDict (Response_to_dict response) |}.

(** The frame of [send_event_response]. *)
Definition event_response_frame (event_id : pyval) (success : bool) : frame :=
  {| tag := "KENNEL_EVENT_RESPONSE";
     body := PDict [("event_id", event_id); ("success", PBool success)] |}.

(** The frame of [send_error_response]. *)
Definition error_frame (msg : string) : frame :=
  {| tag := "KENNEL_ERROR"; body := PDict [("error", PStr msg)] |}.

(** The frame [run] prints when the startup fails. *)
Definition plugin_error_frame (msg : string) : frame :=
  {| tag := "KENNEL_PLUGIN_ERROR";
     body := PDict [("status", PStr "error");
                    ("plugin_id", PStr (environ_get "KENNEL_PLUGIN_ID" ""));
                    ("error", PStr msg)] |}.

(** The [finally] clause of [command_loop]: it enters [stop()] once and
    absorbs what it raises. *)
Definition finally_clause : Py X unit :=
  Logger_call "info";;
  try_except
    (invoke CStop stop)
    (except_Exception (fun _ => Logger_call "error";; Logger_call "error")).

(** A line that does not ask for the stop. *)
Definition quiet (e : stdin_event) : Prop :=
  match e with
  | Line raw => PyStr.strip raw <> "KENNEL_STOP"
  | Signal _ => False
  end.

(** [command_failure p s msg cs s']: dispatching the payload [p] with the
    plugin in state [s] fails with message [msg], because [p] is not JSON
    or because the handler the envelope selects raises; [cs] is the call
    made and [s'] the state the plugin is left in. *)
Inductive command_failure (command_json : string) (s : pstate X)
  : string -> list call -> pstate X -> Prop :=
| Malformed msg :
    json_loads command_json = Err msg ->
    command_failure command_json s msg [] s
| RequestRaises command data request msg s' :
    json_loads command_json = Ok command ->
    py_get (proj1_sig command) "type" (PStr "") = Ok (PStr "request") ->
    py_get (proj1_sig command) "data" (PDict []) = Ok data ->
    Request_from_dict data = Ok request ->
    handle_request request s = (Err msg, s') ->
    command_failure command_json s msg [CHandleRequest request] s'
| EventRaises command data event n msg s' :
    json_loads command_json = Ok command ->
    py_get (proj1_sig command) "type" (PStr "") = Ok (PStr "event") ->
    py_get (proj1_sig command) "data" (PDict []) = Ok data ->
    Event_from_dict time_source data (now s) = (Ok event, n) ->
    handle_event event {| self := self s; now := n |} = (Err msg, s') ->
    command_failure command_json s msg [CHandleEvent event] s'
| HealthCheckRaises command msg s' :
    json_loads command_json = Ok command ->
    py_get (proj1_sig command) "type" (PStr "") = Ok (PStr "health_check") ->
    check_health s = (Err msg, s') ->
    command_failure command_json s msg [CCheckHealth] s'.

(** [startup_failure cfg s msg cs s']: with the plugin in state [s],
    [init(cfg)] raises, or it returns and [start()] raises; [msg] is the
    message, [cs] the calls made and [s'] the state the plugin is left in. *)
Inductive startup_failure (cfg : pyval) (s : pstate X)
  : string -> list call -> pstate X -> Prop :=
| InitRaises msg s' :
    init cfg s = (Err msg, s') ->
    startup_failure cfg s msg [CInit cfg] s'
| StartRaises msg s1 s2 :
    init cfg s = (Ok tt, s1) ->
    start s1 = (Err msg, s2) ->
    startup_failure cfg s msg [CInit cfg; CStart] s2.

(** The frame [run] prints when the startup succeeds. *)
Definition ready_frame (info : ModuleInfo) : frame :=
  {| tag := "KENNEL_PLUGIN_READY";
     body := PDict [("status", PStr "ready");
                    ("plugin_id", PStr (environ_get "KENNEL_PLUGIN_ID" ""));
                    ("info", ModuleInfo_to_dict info)] |}.

(** The frame of [send_health_response]. *)
Definition health_response_frame (health : HealthStatus) : frame :=
  {| tag := "KENNEL_HEALTH_RESPONSE"; body := HealthStatus_to_dict health |}.

(** The tags of the frames that answer a command. *)
Definition reply_tags : list string :=
  [ "KENNEL_RESPONSE"; "KENNEL_EVENT_RESPONSE"; "KENNEL_HEALTH_RESPONSE";
    "KENNEL_ERROR" ].

(** A line the loop passes to [handle_command]. *)
Definition is_command_line (raw : string) : bool :=
  PyStr.startswith (PyStr.strip raw) "KENNEL_COMMAND:".

End ModuleRunner.

(** ** [config.py] and the level names of [logger.py] *)

Module PyText.

(** [str.lower] on one code point below 256: the letters A to Z, and the
    capital letters of Latin-1 (192 to 222, the multiplication sign 215
    apart), move up by 32. *)
Definition lower_char (c : ascii) : ascii :=
  let n := nat_of_ascii c in
  if ((65 <=? n) && (n <=? 90)
      || (192 <=? n) && (n <=? 222) && negb (n =? 215))%nat
  then ascii_of_nat (n + 32)
  else c.

(** [s.lower()] *)
Fixpoint lower (s : string) : string :=
  match s with
  | EmptyString => EmptyString
  | String c r => String (lower_char c) (lower r)
  end.

(** [s.split(".")] *)
Fixpoint split_dot (s : string) : list string :=
  match s with
  | EmptyString => [EmptyString]
  | String c r =>
      if Ascii.eqb c "."%char then EmptyString :: split_dot r
      else
        match split_dot r with
        | [] => [String c EmptyString]
        | h :: t => String c h :: t
        end
  end.

(** [".".join(parts)] *)
Fixpoint join_dot (parts : list string) : string :=
  match parts with
  | [] => EmptyString
  | [p] => p
  | p :: rest => p ++ "." ++ join_dot rest
  end.

(** ["." in s] *)
Fixpoint has_dot (s : string) : bool :=
  match s with
  | EmptyString => false
  | String c r => Ascii.eqb c "."%char || has_dot r
  end.

End PyText.

Section ConfigHelper.

(** [int(s)] on a string: the number, or [None] where Python raises
    [ValueError]. *)
Variable int_of_str : string -> option Z.

(** [self.config] *)
Variable config : pydict.

Definition is_str (v : pyval) : bool :=
  match v with PStr _ => true | _ => false end.

(** [value.lower() in ("true", "yes", "1", "on")] *)
Definition truthy_word (value : string) : bool :=
  existsb (String.eqb (PyText.lower value)) ["true"; "yes"; "1"; "on"].

Definition get_string (key default_value : string) : string :=
  match lookup key config with
  | Some (PStr value) => value
  | _ => default_value
  end.

(** The chain of [isinstance] tests shared by [get_int] and
    [get_nested_int]. A [bool] is an instance of [int] and is returned as
    it is. *)
Definition as_int (value : pyval) (default_value : Z) : pyval :=
  match value with
  | PInt _ | PBool _ => value
  | PFloat q => PInt (int_of_float q)
  | PStr s =>
      match int_of_str s with
      | Some z => PInt z
      | None => PInt default_value
      end
  | _ => PInt default_value
  end.

Definition get_int (key : string) (default_value : Z) : pyval :=
  match lookup key config with
  | Some value => as_int value default_value
  | None => PInt default_value
  end.

(** The chain of [isinstance] tests shared by [get_bool] and
    [get_nested_bool]. *)
Definition as_bool (value : pyval) (default_value : bool) : bool :=
  match value with
  | PBool b => b
  | PStr s => truthy_word s
  | PInt z => negb (z =? 0)%Z
  | _ => default_value
  end.

Definition get_bool (key : string) (default_value : bool) : bool :=
  match lookup key config with
  | Some value => as_bool value default_value
  | None => default_value
  end.

(** [if default_value is None: default_value = []] *)
Definition or_empty {A} (default_value : option (list A)) : list A :=
  match default_value with
  | Some l => l
  | None => []
  end.

Definition get_list (key : string) (default_value : option (list pyval))
  : list pyval :=
  match lookup key config with
  | Some (PList value) => value
  | _ => or_empty default_value
  end.

Definition get_string_list (key : string) (default_value : option (list string))
  : list string :=
  let default_value := or_empty default_value in
  let value_list := get_list key (Some []) in
  let result :=
    flat_map (fun item => match item with PStr s => [s] | _ => [] end)
      value_list in
  match result, default_value with
  | [], _ :: _ => default_value
  | _, _ => result
  end.

Definition get_dict (key : string) (default_value : option pydict) : pydict :=
  match lookup key config with
  | Some (PDict value) => value
  | _ => or_empty default_value
  end.

(** The loop of [get_nested] over the keys of the path. *)
Fixpoint walk (keys : list string) (current default_value : pyval) : pyval :=
  match keys with
  | [] => current
  | key :: rest =>
      match current with
      | PDict d =>
          match lookup key d with
          | Some v => walk rest v default_value
          | None => default_value
          end
      | _ => default_value
      end
  end.

Definition get_nested (path : string) (default_value : pyval) : pyval :=
  walk (PyText.split_dot path) (PDict config) default_value.

Definition get_nested_string (path default_value : string) : string :=
  match get_nested path PNone with
  | PStr value => value
  | _ => default_value
  end.

Definition get_nested_int (path : string) (default_value : Z) : pyval :=
  as_int (get_nested path PNone) default_value.

Definition get_nested_bool (path : string) (default_value : bool) : bool :=
  as_bool (get_nested path PNone) default_value.

Definition get_nested_dict (path : string) (default_value : option pydict)
  : pydict :=
  match get_nested path PNone with
  | PDict value => value
  | _ => or_empty default_value
  end.

Definition get_nested_list (path : string) (default_value : option (list pyval))
  : list pyval :=
  match get_nested path PNone with
  | PList value => value
  | _ => or_empty default_value
  end.

End ConfigHelper.

(** [LogLevel] *)
Inductive LogLevel : Type :=
| TRACE
| DEBUG
| INFO
| WARN
| ERROR
| OFF.

(** [level.value] *)
Definition LogLevel_value (l : LogLevel) : Z :=
  match l with
  | TRACE => 5
  | DEBUG => 10
  | INFO => 20
  | WARN => 30
  | ERROR => 40
  | OFF => 100
  end.

(** The level [create_logger] passes to [Logger]. *)
Definition create_logger_level (level : string) : LogLevel :=
  let l := PyText.lower level in
  if l =? "trace" then TRACE
  else if l =? "debug" then DEBUG
  else if l =? "info" then INFO
  else if l =? "warn" then WARN
  else if l =? "error" then ERROR
  else if l =? "off" then OFF
  else INFO.

(** ** Sample plugins and payloads *)

Module Samples.

(** A decoder given by the table of the payloads it accepts; for any
    other text it raises the error [json.loads] reports for a text
    that does not begin a JSON value. *)
Definition loads_table (tbl : list (string * jsonval)) (s : string)
  : result jsonval :=
  match find (fun kv => fst kv =? s) tbl with
  | Some kv => Ok (snd kv)
  | None => Err "Expecting value: line 1 column 1 (char 0)"
  end.

Definition json (v : pyval) (H : is_json v = true) : jsonval := exist _ v H.

(** A JSON string literal: [s] between two double quotes. *)
Definition q (s : string) : string :=
  String (ascii_of_nat 34) (s ++ String (ascii_of_nat 34) EmptyString).

Definition request_1 : string :=
  "{" ++ q "type" ++ ": " ++ q "request" ++ ", " ++ q "data" ++ ": {"
      ++ q "id" ++ ": " ++ q "1" ++ ", " ++ q "action" ++ ": " ++ q "hello"
      ++ "}}".

Definition event_7 : string :=
  "{" ++ q "type" ++ ": " ++ q "event" ++ ", " ++ q "data" ++ ": {"
      ++ q "id" ++ ": " ++ q "7" ++ ", " ++ q "type" ++ ": "
      ++ q "system.startup" ++ "}}".

Definition health_check : string :=
  "{" ++ q "type" ++ ": " ++ q "health_check" ++ ", " ++ q "data" ++ ": {}}".

Definition unknown_foo : string :=
  "{" ++ q "type" ++ ": " ++ q "foo" ++ "}".

Definition request_1_data : pydict :=
  [("id", PStr "1"); ("action", PStr "hello")].

Definition event_7_data : pydict :=
  [("id", PStr "7"); ("type", PStr "system.startup")].

Definition request_1_value : jsonval :=
  json (PDict [("type", PStr "request"); ("data", PDict request_1_data)]) eq_refl.

Definition event_7_value : jsonval :=
  json (PDict [("type", PStr "event"); ("data", PDict event_7_data)]) eq_refl.

Definition health_check_value : jsonval :=
  json (PDict [("type", PStr "health_check"); ("data", PDict [])]) eq_refl.

Definition unknown_foo_value : jsonval :=
  json (PDict [("type", PStr "foo")]) eq_refl.

Definition empty_config : jsonval := json (PDict []) eq_refl.

Definition payloads : list (string * jsonval) :=
  [ ("{}", empty_config);
    (request_1, request_1_value);
    (event_7, event_7_value);
    (health_check, health_check_value);
    (unknown_foo, unknown_foo_value) ].

Definition loads : string -> result jsonval := loads_table payloads.

(** A wall clock that runs forward, one second and a half per reading
    from 1000 s on, and one that is set back by 50 s after its second
    reading. *)
Definition forward_clock (k : nat) : Q := 1000 + inject_Z (Z.of_nat k) * (3 # 2).

Definition stepped_back_clock (k : nat) : Q :=
  if (k <=? 1)%nat then 100 else 50.

(** A plugin all of whose methods raise, except [get_info]. *)
Definition FailingPlugin : Module unit := {|
  init := fun _ s => (Err "init failed", s);
  start := fun s => (Err "start failed", s);
  stop := fun s => (Err "stop failed", s);
  get_info := fun s =>
    (Ok (ModuleInfo_init (PStr "failing") (PStr "failing") (PStr "0")
           PNone PNone PNone PNone PNone), s);
  handle_request := fun _ s => (Err "request failed", s);
  handle_event := fun _ s => (Err "event failed", s);
  check_health := fun s => (Err "health failed", s)
|}.

(** A plugin that answers every request under the same id. *)
Definition FixedIdPlugin : Module unit := {|
  init := fun _ s => (Ok tt, s);
  start := fun s => (Ok tt, s);
  stop := fun s => (Ok tt, s);
  get_info := fun s =>
    (Ok (ModuleInfo_init (PStr "fixed") (PStr "fixed") (PStr "0")
           PNone PNone PNone PNone PNone), s);
  handle_request := fun _ s =>
    (Ok (Response_init (PStr "fixed") (PBool true) PNone PNone PNone), s);
  handle_event := fun _ s => (Ok true, s);
  check_health := Module_check_health forward_clock
|}.

(** Stand-in for the f-string of [BaseModule.handle_request], whose
    literal part is outside the characters of the embedding. *)
Definition not_implemented (action : pyval) : string :=
  match action with
  | PStr a => "not implemented: " ++ a
  | _ => "not implemented"
  end.

Definition base_module : Module BaseModule_attrs :=
  BaseModule forward_clock not_implemented.

(** The request that [request_1] carries, and the answer of
    [BaseModule.handle_request] to it. *)
Definition request_1_request : Request :=
  Request_init (PStr "1") (PStr "hello") (PDict []) (PDict []) (PInt 30000).

Definition request_1_response : Response :=
  Response_init (PStr "1") (PBool false) PNone
    (PDict [("code", PStr "not_implemented");
            ("message", PStr "not implemented: hello")])
    PNone.

(** The event that [event_7] carries when the clock has been read once. *)
Definition event_7_event : Event :=
  {| Event_id := PStr "7";
     Event_type := PStr "system.startup";
     Event_source := PStr EmptyString;
     Event_data := PDict [];
     Event_metadata := PDict [];
     Event_timestamp := PInt 1001500 |}.

Definition base_attrs : BaseModule_attrs :=
  {| BaseModule_id := PStr "base";
     BaseModule_name := PStr "Base";
     BaseModule_version := PStr "1.0.0";
     BaseModule_description := PStr EmptyString;
     BaseModule_author := PStr EmptyString;
     BaseModule_license := PStr EmptyString;
     BaseModule_capabilities := PList [];
     BaseModule_supported_platforms :=
       PList [PStr "windows"; PStr "linux"; PStr "darwin"] |}.

(** A module instance right after its constructor, which took the first
    reading of the clock. *)
Definition fresh {X} (clock : nat -> Q) (attrs : X) : pstate X :=
  {| self := {| config := PDict []; start_time := clock O; ext := attrs |};
     now := 1 |}.

Definition boot {X} (clock : nat -> Q) (attrs : X) (input : list stdin_event)
  : world X :=
  {| plug := fresh clock attrs; stdin := input; stdout := []; calls := [] |}.

Definition base_world (input : list stdin_event) : world BaseModule_attrs :=
  boot forward_clock base_attrs input.

Definition unit_world (input : list stdin_event) : world unit :=
  boot forward_clock tt input.

(** More payloads: a health check and a request whose [data] is not a
    mapping. *)
Definition health_check_5 : string :=
  "{" ++ q "type" ++ ": " ++ q "health_check" ++ ", " ++ q "data" ++ ": 5}".

Definition request_null : string :=
  "{" ++ q "type" ++ ": " ++ q "request" ++ ", " ++ q "data" ++ ": null}".

Definition health_check_5_value : jsonval :=
  json (PDict [("type", PStr "health_check"); ("data", PInt 5)]) eq_refl.

Definition request_null_value : jsonval :=
  json (PDict [("type", PStr "request"); ("data", PNone)]) eq_refl.

Definition more_loads : string -> result jsonval :=
  loads_table ((health_check_5, health_check_5_value)
               :: (request_null, request_null_value)
               :: payloads).

(** Command lines as [readline] returns them. *)
Definition line_of (payload : string) : string :=
  "KENNEL_COMMAND:" ++ payload ++ String (ascii_of_nat 10) EmptyString.

Definition stop_line : string :=
  "KENNEL_STOP" ++ String (ascii_of_nat 10) EmptyString.

(** A plugin that starts and whose information holds an object
    [json.dumps] does not know. *)
Definition OpaqueInfoPlugin : Module unit := {|
  init := fun _ s => (Ok tt, s);
  start := fun s => (Ok tt, s);
  stop := fun s => (Ok tt, s);
  get_info := fun s =>
    (Ok (ModuleInfo_init (PStr "opaque") (PStr "opaque") (PObject "datetime")
           PNone PNone PNone PNone PNone), s);
  handle_request := fun _ s => (Err "request failed", s);
  handle_event := fun _ s => (Err "event failed", s);
  check_health := fun s => (Err "health failed", s)
|}.

(** The information [BaseModule.get_info] builds from [base_attrs]. *)
Definition base_info : ModuleInfo :=
  ModuleInfo_init (PStr "base") (PStr "Base") (PStr "1.0.0")
    (PStr EmptyString) (PStr EmptyString) (PStr EmptyString) (PList [])
    (PList [PStr "windows"; PStr "linux"; PStr "darwin"]).

(** A configuration with nested mappings, and a reader of decimal digits
    that knows one number. *)
Definition sample_config : pydict :=
  [ ("name", PStr "kennel");
    ("ratio", PFloat (-7 # 2));
    ("server", PDict [("port", PInt 8080); ("tls", PStr "Yes")]);
    ("server.port", PInt 1) ].

Definition sample_int_of_str (s : string) : option Z :=
  if s =? "42" then Some 42%Z else None.

End Samples.

(** * Properties *)

(** ** [Response.to_dict] *)

(** C7, as the code has it: a serialized [Response] always has a [data]
    field (the empty mapping when the handler gave none), and it has an
    [error] field exactly when the [error] attribute is non-empty,
    whatever the success flag is; each field is the attribute itself. *)
Theorem to_dict_data_always_error_when_set (r : Response) :
  lookup "data" (Response_to_dict r) = Some (Response_data r) /\
  has_key "error" (Response_to_dict r) = truthy (Response_error r) /\
  (truthy (Response_error r) = true ->
   lookup "error" (Response_to_dict r) = Some (Response_error r)).
Proof.
  unfold Response_to_dict.
  destruct (truthy (Response_error r)); repeat split; try reflexivity; intros;
    try discriminate.
Qed.

(** C7 fails as stated: the answer [BaseModule.handle_request] builds has
    [success] false and an [error], and its dictionary holds [data] too. *)
Lemma data_and_error_not_exclusive :
  let s := Samples.fresh Samples.forward_clock Samples.base_attrs in
  let request :=
    Request_init (PStr "1") (PStr "hello") (PDict []) (PDict []) (PInt 30000) in
  exists r,
    fst (BaseModule_handle_request (fun _ => "not implemented") request s) = Ok r /\
    Response_success r = PBool false /\
    has_key "data" (Response_to_dict r) = true /\
    has_key "error" (Response_to_dict r) = true /\
    ~ (has_key "data" (Response_to_dict r) = true <->
       Response_success r = PBool true).
Proof.
  simpl. eexists. split; [reflexivity|].
  repeat split; try reflexivity.
  intros [H _]. specialize (H eq_refl). discriminate.
Qed.

(** ** [Module.check_health] *)

Section CheckHealth.

Variable time_source : nat -> Q.
Context {X : Type}.

Lemma Module_check_health_eq (s : pstate X) :
  exists h s',
    Module_check_health time_source s = (Ok h, s') /\
    HealthStatus_status h = PStr "healthy" /\
    HealthStatus_details h =
      PDict [("uptime", PFloat (time_source (now s) - start_time (self s)))] /\
    self s' = self s /\
    (S (now s) < now s')%nat.
Proof.
  unfold Module_check_health, Op_of_clk, HealthStatus_init, timestamp_or_now,
    cbind, time_time, cret.
  cbn [truthy].
  destruct (negb (millis (time_source (S (now s))) =? 0)%Z);
    cbn; do 2 eexists; (split; [reflexivity|]); cbn; repeat split; lia.
Qed.

(** C9, as the code has it: the inherited [check_health] reports the
    status healthy and, as uptime, the wall-clock reading minus the one
    [start()] stored. When the wall clock never goes backwards, the
    uptime of every call made after [start()] is non-negative, and the
    uptime of a later call is not below that of an earlier one. *)
Theorem check_health_uptime_with_forward_clock
    (s0 sa sb : pstate X)
    (forward : forall i j, (i <= j)%nat -> time_source i <= time_source j)
    (started_a : start_time (self sa) =
                 start_time (self (snd (Module_start time_source s0))))
    (started_b : start_time (self sb) = start_time (self sa))
    (after_start : (now (snd (Module_start time_source s0)) <= now sa)%nat)
    (successive : (now (snd (Module_check_health time_source sa)) <= now sb)%nat) :
  exists ha hb ua ub,
    fst (Module_check_health time_source sa) = Ok ha /\
    fst (Module_check_health time_source sb) = Ok hb /\
    HealthStatus_status ha = PStr "healthy" /\
    HealthStatus_status hb = PStr "healthy" /\
    uptime_of ha = Some ua /\
    uptime_of hb = Some ub /\
    0 <= ua /\ ua <= ub.
Proof.
  destruct (Module_check_health_eq sa) as (ha & sa' & Ea & Sa & Da & _ & La).
  destruct (Module_check_health_eq sb) as (hb & sb' & Eb & Sb & Db & _ & _).
  rewrite Ea in successive. rewrite Ea, Eb. simpl in *.
  exists ha, hb.
  exists (time_source (now sa) - start_time (self sa)).
  exists (time_source (now sb) - start_time (self sb)).
  unfold uptime_of. rewrite Da, Db.
  repeat split; auto.
  - rewrite started_a.
    assert (H : time_source (now s0) <= time_source (now sa))
      by (apply forward; lia).
    lra.
  - rewrite started_b.
    assert (H : time_source (now sa) <= time_source (now sb))
      by (apply forward; lia).
    lra.
Qed.

End CheckHealth.

(** C9 fails as stated: [time.time()] is the wall clock, and when it is
    set back after [start()] the inherited [check_health] reports a
    negative uptime. *)
Lemma uptime_negative_when_clock_set_back :
  let s0 := Samples.fresh Samples.stepped_back_clock tt in
  let s1 := snd (Module_start Samples.stepped_back_clock s0) in
  exists h u,
    fst (Module_check_health Samples.stepped_back_clock s1) = Ok h /\
    HealthStatus_status h = PStr "healthy" /\
    uptime_of h = Some u /\
    u < 0.
Proof.
  simpl. do 2 eexists. repeat split.
Qed.

(** ** The dispatcher and the loop *)

Section RunnerFacts.

Variable time_source : nat -> Q.
Variable json_loads : string -> result jsonval.
Variable environ : list (string * string).
Context {X : Type} {module : Module X}.

Local Abbreviation handle_command := (handle_command time_source json_loads).
Local Abbreviation loop_body := (loop_body time_source json_loads).
Local Abbreviation command_loop := (command_loop time_source json_loads).
Local Abbreviation run := (run time_source json_loads environ).
Local Abbreviation command_failure := (command_failure time_source json_loads).
Local Abbreviation plugin_error_frame := (plugin_error_frame environ).
Local Abbreviation ready_frame := (ready_frame environ).

Lemma Logger_info : @Logger_call X "info" = ret tt.
Proof. reflexivity. Qed.

Lemma Logger_error : @Logger_call X "error" = ret tt.
Proof. reflexivity. Qed.

Lemma Logger_warning :
  @Logger_call X "warning" =
  raise (Exception "'Logger' object has no attribute 'warning'").
Proof. reflexivity. Qed.

(** *** A command that fails *)

Lemma py_get_data_of_type (command : pyval) (ty : pyval) :
  py_get command "type" (PStr "") = Ok ty ->
  exists data, py_get command "data" (PDict []) = Ok data.
Proof.
  destruct command; simpl; try discriminate. eauto.
Qed.

(** Symbolic execution of runner code: unfold the monad, use the
    equations in the context, decide the tests on literals. *)
Ltac run_py :=
  repeat first
    [ rewrite Logger_info
    | rewrite Logger_error
    | rewrite Logger_warning
    | progress unfold bind, lift_result, invoke, print, ret, raise, sys_exit,
        Py_of_clk, try_except, except_Exception, send_response,
        send_event_response, send_health_response
    | progress cbn [plug stdin stdout calls add_call set_plug set_stdin
                    add_stdout self now fst snd proj1_sig]
    | match goal with
      | H : ?l = _ |- context [?l] => rewrite H
      | |- context [eq_str (PStr ?a) ?b] =>
          let v := eval vm_compute in (eq_str (PStr a) b) in
          change (eq_str (PStr a) b) with v
      end
    | progress cbv beta iota ].

Lemma handle_command_failure
    (command_json msg : string) (w : world X) (cs : list call) (s' : pstate X) :
  command_failure command_json (plug w) msg cs s' ->
  handle_command command_json w =
    Some (Ret tt, {| plug := s'; stdin := stdin w;
                     stdout := stdout w ++ [error_frame msg];
                     calls := calls w ++ cs |}).
Proof.
  intros F. unfold handle_command.
  destruct F as [msg H
                | command data request msg s' H Ht Hd Hr Hh
                | command data event n msg s' H Ht Hd He Hh
                | command msg s' H Ht Hh].
  - run_py. now rewrite app_nil_r.
  - now run_py.
  - now run_py.
  - destruct (py_get_data_of_type _ Ht) as [data Hd]. now run_py.
Qed.

Lemma command_line_tests (command_json : string) :
  let line := ("KENNEL_COMMAND:" ++ command_json)%string in
  (line =? "") = false /\
  PyStr.startswith line "KENNEL_COMMAND:" = true /\
  PyStr.drop (String.length "KENNEL_COMMAND:") line = command_json.
Proof. cbv zeta. split; [|split]; reflexivity. Qed.

(** What one iteration of the loop does with a command line. *)
Lemma loop_body_command (raw command_json : string) (rest : list stdin_event)
    (w : world X) :
  PyStr.strip raw = ("KENNEL_COMMAND:" ++ command_json)%string ->
  loop_body (set_stdin w (Line raw :: rest)) =
    (handle_command command_json;; ret Continue) (set_stdin w rest).
Proof.
  intros H. unfold loop_body, readline, bind at 1. cbn [stdin set_stdin].
  rewrite H.
  destruct (command_line_tests command_json) as (E1 & E2 & E3).
  cbv zeta in E1, E2, E3. rewrite E1, E2, E3. reflexivity.
Qed.

(** C5: a command line whose payload is not JSON, or whose handler
    raises, makes the dispatcher print exactly one [KENNEL_ERROR] frame,
    with the message of the failure; the dispatcher returns normally, and
    the loop goes on to read the lines that follow, with nothing else
    changed than what the handler itself did. *)
Theorem failed_command_yields_one_error_frame
    (command_json msg : string) (w : world X) (cs : list call) (s' : pstate X)
    (failure : command_failure command_json (plug w) msg cs s') :
  handle_command command_json w =
    Some (Ret tt, {| plug := s'; stdin := stdin w;
                     stdout := stdout w ++ [error_frame msg];
                     calls := calls w ++ cs |}) /\
  forall (fuel : nat) (raw : string) (rest : list stdin_event),
    PyStr.strip raw = ("KENNEL_COMMAND:" ++ command_json)%string ->
    while_true (S fuel) loop_body (set_stdin w (Line raw :: rest)) =
    while_true fuel loop_body
      {| plug := s'; stdin := rest;
         stdout := stdout w ++ [error_frame msg];
         calls := calls w ++ cs |}.
Proof.
  split.
  - now apply handle_command_failure.
  - intros fuel raw rest Hraw.
    cbn [while_true]. rewrite (loop_body_command _ _ _ Hraw).
    unfold bind.
    rewrite (@handle_command_failure command_json msg (set_stdin w rest) cs s')
      by exact failure.
    reflexivity.
Qed.


(** *** The dispatcher always returns *)

Lemma stop_count_app (a b : list call) :
  stop_count (a ++ b) = (stop_count a + stop_count b)%nat.
Proof.
  unfold stop_count. now rewrite filter_app, length_app.
Qed.

(** Whatever the payload and the plugin do, [handle_command] returns
    normally; it reads nothing, and the only calls it makes are calls of
    handlers. *)
Lemma handle_command_returns (command_json : string) (w : world X) :
  exists w' cs,
    handle_command command_json w = Some (Ret tt, w') /\
    stdin w' = stdin w /\
    calls w' = calls w ++ cs /\
    forallb is_handler cs = true.
Proof.
  unfold handle_command. run_py.
  destruct (json_loads command_json) as [command|msg]; run_py.
  2:{ exists (add_stdout w (error_frame msg)), []. now rewrite app_nil_r. }
  destruct (py_get (proj1_sig command) "type" (PStr "")) as [ty|msg] eqn:Et; run_py.
  2:{ exists (add_stdout w (error_frame msg)), []. now rewrite app_nil_r. }
  destruct (py_get_data_of_type _ Et) as [data Ed]. run_py.
  destruct (eq_str ty "request").
  { destruct (Request_from_dict data) as [request|msg]; run_py.
    2:{ exists (add_stdout w (error_frame msg)), []. now rewrite app_nil_r. }
    destruct (handle_request request (plug w)) as [[response|msg] s'].
    - run_py. destruct (json_dumps (PDict (Response_to_dict response))) as [j|msg];
        run_py; do 2 eexists; (split; [reflexivity|]); cbn;
        repeat split; reflexivity.
    - run_py. do 2 eexists; (split; [reflexivity|]); cbn;
        repeat split; reflexivity. }
  destruct (eq_str ty "event").
  { destruct (Event_from_dict time_source data (now (plug w))) as [[event|msg] n];
      run_py.
    2:{ eexists _, []. split; [reflexivity|]. cbn. now rewrite app_nil_r. }
    destruct (handle_event event {| self := self (plug w); now := n |})
      as [[success|msg] s'].
    - run_py. destruct (json_dumps (PDict [("event_id", Event_id event);
                                   ("success", PBool success)])) as [j|msg];
        run_py; do 2 eexists; (split; [reflexivity|]); cbn;
        repeat split; reflexivity.
    - run_py. do 2 eexists; (split; [reflexivity|]); cbn;
        repeat split; reflexivity. }
  destruct (eq_str ty "health_check").
  { destruct (check_health (plug w)) as [[health|msg] s'].
    - run_py. destruct (json_dumps (HealthStatus_to_dict health)) as [j|msg];
        run_py; do 2 eexists; (split; [reflexivity|]); cbn;
        repeat split; reflexivity.
    - run_py. do 2 eexists; (split; [reflexivity|]); cbn;
        repeat split; reflexivity. }
  run_py. eexists _, []. split; [reflexivity|]. cbn. now rewrite app_nil_r.
Qed.


(** *** The two shutdown paths *)

(** [_handle_signal] enters [stop()] once, absorbs what it raises, and
    leaves through [sys.exit(0)]. *)
Lemma _handle_signal_exits (A : Type) (signum : Z) (w : world X) :
  exists s',
    _handle_signal (A := A) signum w =
      Some (Raise (SystemExit 0),
            {| plug := s'; stdin := stdin w; stdout := stdout w;
               calls := calls w ++ [CStop] |}).
Proof.
  unfold _handle_signal. run_py.
  destruct (stop (plug w)) as [[[]|msg] s']; run_py; eexists; reflexivity.
Qed.

Lemma finally_clause_returns (w : world X) :
  exists s',
    finally_clause w =
      Some (Ret tt,
            {| plug := s'; stdin := stdin w; stdout := stdout w;
               calls := calls w ++ [CStop] |}).
Proof.
  unfold finally_clause. run_py.
  destruct (stop (plug w)) as [[[]|msg] s']; run_py; eexists; reflexivity.
Qed.

Lemma command_loop_unfold (fuel : nat) (w : world X) :
  command_loop fuel w =
    try_finally
      (try_except
         (while_true fuel loop_body)
         (fun e =>
            match e with
            | KeyboardInterrupt => Some (Logger_call "info")
            | Exception _ => Some (Logger_call "error";; Logger_call "error")
            | SystemExit _ => None
            end))
      finally_clause w.
Proof. reflexivity. Qed.

(** One iteration at the end of the input: the empty string read is
    taken for a blank line. *)
Lemma loop_body_end_of_input (w : world X) :
  stdin w = [] -> loop_body w = Some (Ret Continue, w).
Proof.
  intros H. unfold loop_body, readline, bind. now rewrite H.
Qed.

Lemma loop_body_signal (signum : Z) (rest : list stdin_event) (w : world X) :
  exists s',
    loop_body (set_stdin w (Signal signum :: rest)) =
      Some (Raise (SystemExit 0),
            {| plug := s'; stdin := rest; stdout := stdout w;
               calls := calls w ++ [CStop] |}).
Proof.
  unfold loop_body, readline, bind.
  cbn [stdin set_stdin plug stdout calls].
  destruct (_handle_signal_exits string signum (set_stdin w rest)) as [s' E].
  change (set_stdin (set_stdin w (Signal signum :: rest)) rest)
    with (set_stdin w rest).
  rewrite E. now exists s'.
Qed.

Lemma loop_body_stop_line (raw : string) (rest : list stdin_event) (w : world X) :
  PyStr.strip raw = "KENNEL_STOP" ->
  loop_body (set_stdin w (Line raw :: rest)) = Some (Ret Break, set_stdin w rest).
Proof.
  intros H. unfold loop_body, readline, bind. cbn [stdin set_stdin].
  now rewrite H.
Qed.

(** An iteration either goes on, leaves the loop, or is cut short by the
    signal handler's [SystemExit(0)]; it never lets an [Exception] out. *)
Lemma loop_body_outcome (w : world X) :
  exists r w',
    loop_body w = Some (r, w') /\
    (r = Raise (SystemExit 0) \/ exists step, r = Ret step).
Proof.
  destruct (stdin w) as [|[raw|signum] rest] eqn:E.
  - rewrite loop_body_end_of_input by exact E. eauto 6.
  - unfold loop_body, readline, bind. rewrite E.
    destruct (PyStr.strip raw =? ""); [unfold ret; eauto 6|].
    destruct (PyStr.startswith (PyStr.strip raw) "KENNEL_COMMAND:").
    + destruct (handle_command_returns
                  (PyStr.drop (String.length "KENNEL_COMMAND:") (PyStr.strip raw))
                  (set_stdin w rest)) as (w' & cs & H & _).
      rewrite H. unfold ret. eauto 6.
    + destruct (PyStr.strip raw =? "KENNEL_STOP"); run_py; eauto 6.
  - replace w with (set_stdin w (Signal signum :: rest))
      by (destruct w; cbn in *; now subst).
    destruct (loop_body_signal signum rest w) as [s' H].
    rewrite H. eauto 6.
Qed.

Lemma while_true_outcome (fuel : nat) :
  forall (w w' : world X) (r : outcome unit),
    while_true fuel loop_body w = Some (r, w') ->
    r = Ret tt \/ r = Raise (SystemExit 0).
Proof.
  induction fuel as [|fuel IH]; intros w w' r H; cbn [while_true] in H.
  - discriminate.
  - destruct (loop_body_outcome w) as (r1 & w1 & E & [->|[step ->]]);
      rewrite E in H.
    + injection H as <- _. now right.
    + destruct step.
      * eapply IH, H.
      * injection H as <- _. now left.
Qed.

(** Every way out of [command_loop] is a graceful one: it returns, or it
    passes on the [SystemExit(0)] of the signal handler. *)
Lemma command_loop_outcome (fuel : nat) (w w' : world X) (r : outcome unit) :
  command_loop fuel w = Some (r, w') ->
  r = Ret tt \/ r = Raise (SystemExit 0).
Proof.
  rewrite command_loop_unfold. unfold try_finally, try_except.
  destruct (while_true fuel loop_body w) as [[r1 w1]|] eqn:E; [|discriminate].
  apply while_true_outcome in E.
  destruct (finally_clause_returns w1) as [s' F].
  destruct E as [->| ->]; rewrite F; intros H; injection H as <- _; auto.
Qed.


(** C1, evaluated on the path the code gets wrong: when SIGINT or SIGTERM
    arrives while the loop waits for a line, [_handle_signal] runs
    [stop()] and raises [SystemExit(0)], and the [finally] clause of
    [command_loop], through which that exception leaves, runs [stop()] a
    second time. *)
Theorem signal_during_read_runs_stop_twice
    (fuel : nat) (signum : Z) (rest : list stdin_event) (w : world X) :
  exists w',
    command_loop (S fuel) (set_stdin w (Signal signum :: rest)) =
      Some (Raise (SystemExit 0), w') /\
    calls w' = calls w ++ [CStop; CStop] /\
    stop_count (calls w') = (stop_count (calls w) + 2)%nat.
Proof.
  rewrite command_loop_unfold. unfold try_finally, try_except.
  cbn [while_true].
  destruct (loop_body_signal signum rest w) as [s1 E]. rewrite E.
  match goal with
  | |- context [finally_clause ?w1] =>
      destruct (finally_clause_returns w1) as [s2 F]; rewrite F
  end.
  eexists. split; [reflexivity|]. cbn [calls].
  rewrite <- app_assoc. split; [reflexivity|].
  now rewrite stop_count_app.
Qed.

(** The shutdown path of a [KENNEL_STOP] line, for comparison: [stop()]
    is entered once. *)
Lemma stop_line_runs_stop_once
    (fuel : nat) (raw : string) (rest : list stdin_event) (w : world X) :
  PyStr.strip raw = "KENNEL_STOP" ->
  exists s',
    command_loop (S fuel) (set_stdin w (Line raw :: rest)) =
      Some (Ret tt, {| plug := s'; stdin := rest; stdout := stdout w;
                       calls := calls w ++ [CStop] |}).
Proof.
  intros H. rewrite command_loop_unfold. unfold try_finally, try_except.
  cbn [while_true]. rewrite (loop_body_stop_line _ _ _ H).
  destruct (finally_clause_returns (set_stdin w rest)) as [s' F]. rewrite F.
  now exists s'.
Qed.

(** *** The end of the input *)

Lemma while_true_end_of_input (fuel : nat) (w : world X) :
  stdin w = [] -> while_true fuel loop_body w = None.
Proof.
  intros H. induction fuel as [|fuel IH]; cbn [while_true].
  - reflexivity.
  - now rewrite loop_body_end_of_input.
Qed.

Lemma loop_body_quiet_line (raw : string) (rest : list stdin_event) (w : world X) :
  PyStr.strip raw <> "KENNEL_STOP" ->
  exists w',
    loop_body (set_stdin w (Line raw :: rest)) = Some (Ret Continue, w') /\
    stdin w' = rest.
Proof.
  intros H. unfold loop_body, readline, bind. cbn [stdin set_stdin].
  change (set_stdin (set_stdin w (Line raw :: rest)) rest)
    with (set_stdin w rest).
  destruct (PyStr.strip raw =? ""); [unfold ret; eauto|].
  destruct (PyStr.startswith (PyStr.strip raw) "KENNEL_COMMAND:").
  - destruct (handle_command_returns
                (PyStr.drop (String.length "KENNEL_COMMAND:") (PyStr.strip raw))
                (set_stdin w rest)) as (w' & cs & E & Hin & _).
    rewrite E. unfold ret. eauto.
  - destruct (String.eqb_spec (PyStr.strip raw) "KENNEL_STOP") as [E|_];
      [contradiction|]. unfold ret. eauto.
Qed.

(** The loop leaves only on a [KENNEL_STOP] line or on a signal: on any
    other input it is still running after any number of iterations. *)
Lemma while_true_quiet_input (input : list stdin_event) :
  Forall quiet input ->
  forall (fuel : nat) (w : world X),
    stdin w = input -> while_true fuel loop_body w = None.
Proof.
  induction 1 as [|e rest He _ IH]; intros fuel w Hw.
  - now apply while_true_end_of_input.
  - destruct fuel as [|fuel]; [reflexivity|]. cbn [while_true].
    destruct e as [raw|signum]; [|contradiction].
    replace w with (set_stdin w (Line raw :: rest))
      by (destruct w; cbn in *; now subst).
    destruct (loop_body_quiet_line raw rest w He) as (w' & E & Hin).
    rewrite E. now apply IH.
Qed.

(** C2, evaluated on the path the code gets wrong: at the end of the
    input [readline] returns the empty string, which the loop takes for a
    blank line and skips; the loop reads again, for ever. Whatever the
    number of iterations allowed, [command_loop] has not returned: its
    [finally] clause is not reached and [stop()] is not run. *)
Theorem command_loop_spins_at_end_of_input (fuel : nat) (w : world X) :
  command_loop fuel (set_stdin w []) = None.
Proof.
  rewrite command_loop_unfold. unfold try_finally, try_except.
  now rewrite while_true_end_of_input.
Qed.

Lemma command_loop_spins_on_quiet_input
    (fuel : nat) (input : list stdin_event) (w : world X) :
  Forall quiet input -> command_loop fuel (set_stdin w input) = None.
Proof.
  intros H. rewrite command_loop_unfold. unfold try_finally, try_except.
  now rewrite (while_true_quiet_input H).
Qed.


(** *** Startup *)

Ltac norm_world :=
  unfold add_stdout, set_plug, add_call, set_stdin;
  cbn [plug stdin stdout calls].

(** C6: when [init()] or [start()] raises, [run] prints exactly one
    [KENNEL_PLUGIN_ERROR] frame, which carries the plugin id and the
    message of the exception, and leaves through [sys.exit(1)]; no other
    frame is printed, nothing is read from the input, and [stop()] is not
    called. *)
Theorem startup_failure_exits_with_1
    (fuel : nat) (w : world X) (cfg : jsonval) (msg : string)
    (cs : list call) (s' : pstate X)
    (config_ok :
       json_loads (environ_get environ "KENNEL_PLUGIN_CONFIG" "{}") = Ok cfg)
    (failure : startup_failure (proj1_sig cfg) (plug w) msg cs s') :
  run fuel w =
    Some (Raise (SystemExit 1),
          {| plug := s'; stdin := stdin w;
             stdout := stdout w ++ [plugin_error_frame msg];
             calls := calls w ++ cs |}) /\
  exit_status (Raise (SystemExit 1)) = Some 1%Z /\
  stop_count (calls w ++ cs) = stop_count (calls w).
Proof.
  split; [|split].
  - unfold run. cbv zeta.
    destruct failure as [msg s' Hi | msg s1 s2 Hi Hs]; run_py.
    + reflexivity.
    + unfold json_dumps. cbn [first_unserializable]. norm_world.
      rewrite <- app_assoc. reflexivity.
  - reflexivity.
  - rewrite stop_count_app.
    destruct failure; cbn; lia.
Qed.

(** [run] ends in one of two ways: gracefully, by returning or through
    the [SystemExit(0)] of the signal handler; or through [sys.exit(1)],
    and then [stop()] was not called. *)
Lemma run_outcome (fuel : nat) (w w' : world X) (r : outcome unit) :
  run fuel w = Some (r, w') ->
  (r = Ret tt \/ r = Raise (SystemExit 0)) \/
  (r = Raise (SystemExit 1) /\ stop_count (calls w') = stop_count (calls w)).
Proof.
  unfold run. cbv zeta. run_py.
  destruct (json_loads (environ_get environ "KENNEL_PLUGIN_CONFIG" "{}"))
    as [cfg|msg]; run_py.
  2:{ intros H. injection H as <- <-. right. now split. }
  destruct (init (proj1_sig cfg) (plug w)) as [[[]|msg] s1]; run_py.
  2:{ intros H. injection H as <- <-. right. split; [reflexivity|].
      norm_world. rewrite stop_count_app. cbn. lia. }
  destruct (start s1) as [[[]|msg] s2]; run_py.
  2:{ intros H. injection H as <- <-. right. split; [reflexivity|].
      norm_world. rewrite !stop_count_app. cbn. lia. }
  destruct (get_info s2) as [[info|msg] s3]; run_py.
  2:{ intros H. injection H as <- <-. right. split; [reflexivity|].
      norm_world. rewrite !stop_count_app. cbn. lia. }
  match goal with
  | |- context [json_dumps ?v] => destruct (json_dumps v) as [j|msg]
  end; run_py.
  2:{ intros H. injection H as <- <-. right. split; [reflexivity|].
      norm_world. rewrite !stop_count_app. cbn. lia. }
  match goal with
  | |- context [command_loop fuel ?w2] =>
      destruct (command_loop fuel w2) as [[r2 w2']|] eqn:E
  end; [|discriminate].
  destruct (command_loop_outcome _ _ E) as [-> | ->];
    intros H; injection H as <- _; auto.
Qed.

(** C10: an exception that [stop()] raises is absorbed on both shutdown
    paths. With a [stop()] that raises, the signal handler still leaves
    through [sys.exit(0)], and a [KENNEL_STOP] line still makes
    [command_loop] return normally; every way out of [command_loop] has
    exit status 0, and so has every run in which [stop()] was called. *)
Theorem stop_exception_is_absorbed
    (w : world X) (msg : string) (s' : pstate X)
    (stop_raises : stop (plug w) = (Err msg, s')) :
  let w1 := {| plug := s'; stdin := stdin w; stdout := stdout w;
               calls := calls w ++ [CStop] |} in
  invoke CStop stop w = Some (Raise (Exception msg), w1) /\
  (forall signum : Z,
     _handle_signal (A := unit) signum w = Some (Raise (SystemExit 0), w1) /\
     exit_status (Raise (SystemExit 0)) = Some 0%Z) /\
  (forall (fuel : nat) (raw : string) (rest : list stdin_event),
     PyStr.strip raw = "KENNEL_STOP" ->
     command_loop (S fuel) (set_stdin w (Line raw :: rest)) =
       Some (Ret tt, set_stdin w1 rest) /\
     exit_status (Ret tt) = Some 0%Z) /\
  (forall (fuel : nat) (r : outcome unit) (w' : world X),
     command_loop fuel w = Some (r, w') -> exit_status r = Some 0%Z) /\
  (forall (fuel : nat) (r : outcome unit) (w' : world X),
     run fuel w = Some (r, w') ->
     (stop_count (calls w) < stop_count (calls w'))%nat ->
     exit_status r = Some 0%Z).
Proof.
  cbv zeta. split; [|split; [|split; [|split]]].
  - now run_py.
  - intros signum. split; [|reflexivity].
    unfold _handle_signal. now run_py.
  - intros fuel raw rest H. split; [|reflexivity].
    rewrite command_loop_unfold. unfold try_finally, try_except.
    cbn [while_true]. rewrite (loop_body_stop_line _ _ _ H).
    unfold finally_clause. now run_py.
  - intros fuel r w' H.
    apply command_loop_outcome in H. now destruct H as [-> | ->].
  - intros fuel r w' H Hlt.
    destruct (run_outcome _ _ H) as [[-> | ->] | [_ E]]; try reflexivity.
    lia.
Qed.


(** *** Requests, events and unknown types *)

Lemma json_dumps_is_json (v : pyval) : is_json v = true -> json_dumps v = Ok v.
Proof.
  unfold is_json, json_dumps. now destruct (first_unserializable v).
Qed.

Lemma is_json_lookup (d : pydict) (k : string) (v : pyval) :
  is_json (PDict d) = true -> lookup k d = Some v -> is_json v = true.
Proof.
  unfold is_json. induction d as [|[k' v'] d IH]; cbn [lookup]; [discriminate|].
  cbn [first_unserializable].
  destruct (first_unserializable v') eqn:E; [discriminate|].
  intros Hd. destruct (k' =? k).
  - intros H. injection H as <-. now rewrite E.
  - now apply IH.
Qed.

Lemma py_get_is_json (obj default v : pyval) (k : string) :
  is_json obj = true -> is_json default = true ->
  py_get obj k default = Ok v -> is_json v = true.
Proof.
  destruct obj; cbn [py_get]; try discriminate.
  intros Ho Hd H. injection H as <-.
  destruct (lookup k d) eqn:E; [eapply is_json_lookup; eauto | assumption].
Qed.

Lemma Request_from_dict_id (data : pydict) (request : Request) :
  Request_from_dict (PDict data) = Ok request ->
  py_get (PDict data) "id" (PStr "") = Ok (Request_id request).
Proof.
  cbn. intros H. injection H as <-. reflexivity.
Qed.

(** What [Event.from_dict] builds from a mapping. *)
Lemma Event_from_dict_mapping (data : pydict) (n0 n : nat) (event : Event) :
  Event_from_dict time_source (PDict data) n0 = (Ok event, n) ->
  py_get (PDict data) "id" (PStr "") = Ok (Event_id event) /\
  (lookup "timestamp" data = None ->
   exists k, (n0 <= k < n)%nat /\
             Event_timestamp event = PInt (millis (time_source k))).
Proof.
  unfold Event_from_dict, Event_init, timestamp_or_now, cbind, clift, cret,
    time_time.
  cbn [py_get].
  destruct (lookup "timestamp" data) as [ts|] eqn:Ets.
  - destruct (truthy ts); intros H; injection H as <- <-;
      (split; [reflexivity | discriminate]).
  - destruct (truthy (PInt (millis (time_source n0)))) eqn:Et;
      intros H; injection H as <- <-; (split; [reflexivity|]); intros _; cbn.
    + exists n0. split; [lia | reflexivity].
    + exists (S n0). split; [lia | reflexivity].
Qed.

(** [BaseModule.handle_request] answers under the id of the request. *)
Lemma BaseModule_handle_request_echoes_id
    (message : pyval -> string) (request : Request)
    (s : pstate BaseModule_attrs) :
  exists response,
    BaseModule_handle_request message request s = (Ok response, s) /\
    Response_id response = Request_id request.
Proof. eexists. split; reflexivity. Qed.

(** C4, as the code has it: for a request envelope whose data carries the
    id [x], and a handler that returns a [Response] which [json.dumps]
    accepts, the dispatcher prints exactly one [KENNEL_RESPONSE] frame;
    its id field is the id of the [Response] the handler returned, which
    is [x] whenever the handler copies the id of the request, as the
    handler of [BaseModule] does. The runner itself does not compare the
    two ids. *)
Theorem response_frame_carries_handler_id
    (command_json : string) (w : world X) (command : jsonval)
    (data : pydict) (x : pyval) (request : Request) (response : Response)
    (s' : pstate X)
    (decoded : json_loads command_json = Ok command)
    (is_request :
       py_get (proj1_sig command) "type" (PStr "") = Ok (PStr "request"))
    (has_data :
       py_get (proj1_sig command) "data" (PDict []) = Ok (PDict data))
    (has_id : lookup "id" data = Some x)
    (built : Request_from_dict (PDict data) = Ok request)
    (answered : handle_request request (plug w) = (Ok response, s'))
    (serializable : is_json (PDict (Response_to_dict response)) = true) :
  Request_id request = x /\
  handle_command command_json w =
    Some (Ret tt, {| plug := s'; stdin := stdin w;
                     stdout := stdout w ++ [response_frame response];
                     calls := calls w ++ [CHandleRequest request] |}) /\
  lookup "id" (Response_to_dict response) = Some (Response_id response) /\
  (Response_id response = Request_id request ->
   lookup "id" (Response_to_dict response) = Some x).
Proof.
  assert (Hid : Request_id request = x).
  { apply Request_from_dict_id in built. cbn in built.
    rewrite has_id in built. now injection built. }
  assert (Hl : lookup "id" (Response_to_dict response)
               = Some (Response_id response)).
  { unfold Response_to_dict. now destruct (truthy (Response_error response)). }
  repeat split; trivial.
  - unfold handle_command. run_py.
    rewrite (json_dumps_is_json _ serializable). reflexivity.
  - intros E. now rewrite Hl, E, Hid.
Qed.

(** C8: for an event envelope whose data is a mapping, and a handler that
    returns a boolean, the dispatcher prints exactly one
    [KENNEL_EVENT_RESPONSE] frame, whose [event_id] is the id of the
    [Event] built from the data and whose [success] is the boolean the
    handler returned. When the data has no [timestamp], the timestamp of
    the [Event] is a reading of the clock taken while it is built, in
    milliseconds. *)
Theorem event_yields_one_event_response
    (command_json : string) (w : world X) (command : jsonval)
    (data : pydict) (event : Event) (n : nat) (success : bool) (s' : pstate X)
    (decoded : json_loads command_json = Ok command)
    (is_event :
       py_get (proj1_sig command) "type" (PStr "") = Ok (PStr "event"))
    (has_data :
       py_get (proj1_sig command) "data" (PDict []) = Ok (PDict data))
    (built : Event_from_dict time_source (PDict data) (now (plug w))
             = (Ok event, n))
    (handled : handle_event event {| self := self (plug w); now := n |}
               = (Ok success, s')) :
  handle_command command_json w =
    Some (Ret tt, {| plug := s'; stdin := stdin w;
                     stdout := stdout w
                               ++ [event_response_frame (Event_id event) success];
                     calls := calls w ++ [CHandleEvent event] |}) /\
  py_get (PDict data) "id" (PStr "") = Ok (Event_id event) /\
  (lookup "timestamp" data = None ->
   exists k, (now (plug w) <= k < n)%nat /\
             Event_timestamp event = PInt (millis (time_source k))).
Proof.
  destruct (Event_from_dict_mapping _ _ built) as [Hid Hts].
  assert (Hj : is_json (Event_id event) = true).
  { eapply py_get_is_json; [| |exact Hid]; [|reflexivity].
    eapply py_get_is_json; [| |exact has_data]; [|reflexivity].
    exact (proj2_sig command). }
  repeat split; trivial.
  unfold handle_command. run_py.
  unfold json_dumps. cbn [first_unserializable].
  unfold is_json in Hj.
  destruct (first_unserializable (Event_id event)); [discriminate|].
  reflexivity.
Qed.

(** C3, as the code has it: an envelope whose type is none of the three
    reaches no handler and leaves the plugin as it was; the dispatcher
    returns normally, having printed at most one frame, and no frame
    other than [KENNEL_ERROR]; the loop goes on with the lines that
    follow. *)
Theorem unknown_type_reaches_no_handler
    (command_json : string) (w : world X) (command : jsonval) (ty : pyval)
    (decoded : json_loads command_json = Ok command)
    (has_type : py_get (proj1_sig command) "type" (PStr "") = Ok ty)
    (not_request : eq_str ty "request" = false)
    (not_event : eq_str ty "event" = false)
    (not_health_check : eq_str ty "health_check" = false) :
  exists out : list frame,
    (length out <= 1)%nat /\
    Forall (fun f => tag f = "KENNEL_ERROR") out /\
    handle_command command_json w =
      Some (Ret tt, {| plug := plug w; stdin := stdin w;
                       stdout := stdout w ++ out; calls := calls w |}) /\
    forall (fuel : nat) (raw : string) (rest : list stdin_event),
      PyStr.strip raw = ("KENNEL_COMMAND:" ++ command_json)%string ->
      while_true (S fuel) loop_body (set_stdin w (Line raw :: rest)) =
      while_true fuel loop_body
        {| plug := plug w; stdin := rest;
           stdout := stdout w ++ out; calls := calls w |}.
Proof.
  destruct (py_get_data_of_type _ has_type) as [data Hd].
  assert (E : forall w0 : world X,
             handle_command command_json w0 =
               Some (Ret tt,
                     {| plug := plug w0; stdin := stdin w0;
                        stdout := stdout w0
                          ++ [error_frame
                                "'Logger' object has no attribute 'warning'"];
                        calls := calls w0 |})).
  { intros w0. unfold handle_command. now run_py. }
  eexists. split; [|split; [|split]].
  3: apply E.
  - cbn. lia.
  - repeat constructor.
  - intros fuel raw rest Hraw. cbn [while_true].
    rewrite (loop_body_command _ _ _ Hraw). unfold bind.
    rewrite E. reflexivity.
Qed.


(** *** More of the dispatcher and of [run] *)

Lemma first_unserializable_is_json (v : pyval) :
  first_unserializable v = None <-> is_json v = true.
Proof.
  unfold is_json. destruct (first_unserializable v); split; congruence.
Qed.

Lemma handle_command_replies (command_json : string) (w : world X) :
  exists (f : frame) (cs : list call) (s' : pstate X),
    handle_command command_json w =
      Some (Ret tt, {| plug := s'; stdin := stdin w;
                       stdout := stdout w ++ [f];
                       calls := calls w ++ cs |}) /\
    In (tag f) reply_tags /\
    (length cs <= 1)%nat /\
    forallb is_handler cs = true.
Proof.
  unfold handle_command. run_py.
  destruct (json_loads command_json) as [command|msg]; run_py.
  2:{ exists (error_frame msg), [], (plug w). rewrite app_nil_r.
      cbn. intuition auto. }
  destruct (py_get (proj1_sig command) "type" (PStr "")) as [ty|msg] eqn:Et;
    run_py.
  2:{ exists (error_frame msg), [], (plug w). rewrite app_nil_r.
      cbn. intuition auto. }
  destruct (py_get_data_of_type _ Et) as [data Ed]. run_py.
  destruct (eq_str ty "request").
  { destruct (Request_from_dict data) as [request|msg]; run_py.
    2:{ exists (error_frame msg), [], (plug w). rewrite app_nil_r.
        cbn. intuition auto. }
    destruct (handle_request request (plug w)) as [[response|msg] s'].
    - run_py.
      destruct (json_dumps (PDict (Response_to_dict response))) as [j|msg];
        run_py; do 3 eexists; (split; [reflexivity|]); cbn; intuition auto.
    - run_py. do 3 eexists; (split; [reflexivity|]); cbn; intuition auto. }
  destruct (eq_str ty "event").
  { destruct (Event_from_dict time_source data (now (plug w)))
      as [[event|msg] n]; run_py.
    2:{ eexists (error_frame msg), [], _. rewrite app_nil_r.
        split; [reflexivity|]. cbn. intuition auto. }
    destruct (handle_event event {| self := self (plug w); now := n |})
      as [[success|msg] s'].
    - run_py.
      destruct (json_dumps (PDict [("event_id", Event_id event);
                                   ("success", PBool success)])) as [j|msg];
        run_py; do 3 eexists; (split; [reflexivity|]); cbn; intuition auto.
    - run_py. do 3 eexists; (split; [reflexivity|]); cbn; intuition auto. }
  destruct (eq_str ty "health_check").
  { destruct (check_health (plug w)) as [[health|msg] s'].
    - run_py.
      destruct (json_dumps (HealthStatus_to_dict health)) as [j|msg];
        run_py; do 3 eexists; (split; [reflexivity|]); cbn; intuition auto.
    - run_py. do 3 eexists; (split; [reflexivity|]); cbn; intuition auto. }
  run_py. eexists _, [], _. rewrite app_nil_r.
  split; [reflexivity|]. cbn. intuition auto.
Qed.

(** For every payload and every plugin, [handle_command] returns normally
    having printed exactly one frame, a reply frame, and having called at
    most one method of the plugin, a handler and never [stop()]; it reads
    no input. *)
Theorem handle_command_one_frame_one_call (command_json : string) (w : world X) :
  exists w' : world X,
    handle_command command_json w = Some (Ret tt, w') /\
    stdin w' = stdin w /\
    (exists f, stdout w' = stdout w ++ [f] /\ In (tag f) reply_tags) /\
    (exists cs, calls w' = calls w ++ cs /\ (length cs <= 1)%nat /\
                forallb is_handler cs = true) /\
    stop_count (calls w') = stop_count (calls w).
Proof.
  destruct (handle_command_replies command_json w)
    as (f & cs & s' & E & Htag & Hlen & Hcs).
  eexists. split; [exact E|]. cbn [stdin stdout calls].
  split; [reflexivity|]. split; [now exists f|]. split; [now exists cs|].
  rewrite stop_count_app.
  assert (Hz : stop_count cs = 0%nat).
  { unfold stop_count. clear -Hcs.
    induction cs as [|c cs IHc]; [reflexivity|].
    cbn in Hcs. apply andb_prop in Hcs. destruct Hcs as [Hc Hcs].
    destruct c; try discriminate; cbn; now apply IHc. }
  lia.
Qed.


(** A line that, once stripped, is neither a command nor the stop
    request (a blank line, or any other text) is skipped: the loop goes on
    with the next line, and nothing is printed, called or changed. *)
Theorem unrecognized_line_is_skipped
    (fuel : nat) (raw : string) (rest : list stdin_event) (w : world X)
    (not_command : is_command_line raw = false)
    (not_stop : PyStr.strip raw <> "KENNEL_STOP") :
  loop_body (set_stdin w (Line raw :: rest)) =
    Some (Ret Continue, set_stdin w rest) /\
  while_true (S fuel) loop_body (set_stdin w (Line raw :: rest)) =
    while_true fuel loop_body (set_stdin w rest).
Proof.
  assert (E : loop_body (set_stdin w (Line raw :: rest)) =
              Some (Ret Continue, set_stdin w rest)).
  { unfold loop_body, readline, bind. cbn [stdin set_stdin].
    unfold is_command_line in not_command. rewrite not_command.
    destruct (String.eqb_spec (PyStr.strip raw) "KENNEL_STOP") as [E|_];
      [contradiction|].
    now destruct (PyStr.strip raw =? ""). }
  split; [exact E|]. cbn [while_true]. now rewrite E.
Qed.

Lemma loop_body_command_line (raw : string) (rest : list stdin_event)
    (w : world X) :
  is_command_line raw = true ->
  loop_body (set_stdin w (Line raw :: rest)) =
    (handle_command
       (PyStr.drop (String.length "KENNEL_COMMAND:") (PyStr.strip raw));;
     ret Continue) (set_stdin w rest).
Proof.
  unfold is_command_line. intros H.
  unfold loop_body, readline, bind at 1. cbn [stdin set_stdin].
  rewrite H.
  destruct (PyStr.strip raw) as [|c r] eqn:E; [discriminate|].
  reflexivity.
Qed.

Lemma while_true_command_lines (raws : list string) :
  Forall (fun raw => is_command_line raw = true) raws ->
  forall (fuel : nat) (tail : list stdin_event) (w : world X),
  exists w1,
    while_true (length raws + fuel) loop_body
      (set_stdin w (map Line raws ++ tail)) =
    while_true fuel loop_body w1 /\
    stdin w1 = tail /\
    length (stdout w1) = (length (stdout w) + length raws)%nat /\
    stop_count (calls w1) = stop_count (calls w).
Proof.
  induction 1 as [|raw raws Hraw _ IH]; intros fuel tail w.
  - exists (set_stdin w tail). cbn. repeat split; lia.
  - cbn [length map app Nat.add while_true].
    rewrite (loop_body_command_line _ _ _ Hraw). unfold bind.
    destruct (handle_command_replies
                (PyStr.drop (String.length "KENNEL_COMMAND:") (PyStr.strip raw))
                (set_stdin w (map Line raws ++ tail)))
      as (f & cs & s' & E & _ & _ & Hcs).
    rewrite E. unfold ret.
    match goal with
    | |- context [while_true _ _ ?w2] =>
        destruct (IH fuel tail w2) as (w1 & E1 & Hin & Hout & Hstop);
        change w2 with (set_stdin w2 (map Line raws ++ tail));
        rewrite E1
    end.
    exists w1. split; [reflexivity|]. split; [exact Hin|].
    cbn [stdout calls] in Hout, Hstop. rewrite length_app in Hout.
    rewrite stop_count_app in Hstop. cbn [length] in Hout.
    assert (Hz : stop_count cs = 0%nat).
    { unfold stop_count. clear -Hcs.
      induction cs as [|c cs IHc]; [reflexivity|].
      cbn in Hcs. apply andb_prop in Hcs. destruct Hcs as [Hc Hcs].
      destruct c; try discriminate; cbn; now apply IHc. }
    unfold set_stdin in Hout, Hstop. cbn [stdout calls] in Hout, Hstop.
    split; lia.
Qed.

(** A host that sends any number of command lines and then
    [KENNEL_STOP] gets one frame for each command, in one iteration each;
    the loop then ends, [stop()] is run once, and the lines after
    [KENNEL_STOP] are left unread. *)
Theorem commands_then_stop_terminates
    (raws : list string) (stop_line : string) (rest : list stdin_event)
    (w : world X)
    (commands : Forall (fun raw => is_command_line raw = true) raws)
    (stops : PyStr.strip stop_line = "KENNEL_STOP") :
  exists w',
    command_loop (S (length raws))
      (set_stdin w (map Line raws ++ Line stop_line :: rest)) =
      Some (Ret tt, w') /\
    stdin w' = rest /\
    length (stdout w') = (length (stdout w) + length raws)%nat /\
    stop_count (calls w') = S (stop_count (calls w)).
Proof.
  rewrite command_loop_unfold. unfold try_finally, try_except.
  replace (S (length raws)) with (length raws + 1)%nat by lia.
  destruct (while_true_command_lines commands 1 (Line stop_line :: rest) w)
    as (w1 & E & Hin & Hout & Hstop).
  rewrite E. cbn [while_true].
  replace w1 with (set_stdin w1 (Line stop_line :: rest))
    by (destruct w1; cbn in *; now subst).
  rewrite (loop_body_stop_line _ _ _ stops).
  destruct (finally_clause_returns (set_stdin w1 rest)) as [s' F]. rewrite F.
  eexists. split; [reflexivity|]. cbn [stdin stdout calls set_stdin].
  rewrite stop_count_app. cbn. repeat split; lia.
Qed.


(** *** The startup that succeeds, and the ones that fail before or after
    the plugin's own part *)

(** [startup cfg s info s']: from state [s], [init(cfg)], [start()] and
    [get_info()] return in turn, the last one [info], leaving the plugin
    in state [s']. *)
Inductive startup (cfg : pyval) (s : pstate X) (info : ModuleInfo)
    (s' : pstate X) : Prop :=
| Started s1 s2 :
    init cfg s = (Ok tt, s1) ->
    start s1 = (Ok tt, s2) ->
    get_info s2 = (Ok info, s') ->
    startup cfg s info s'.

(** When the configuration decodes, [init()], [start()] and [get_info()]
    return and [json.dumps] accepts the module information, [run] calls
    the three in this order, prints the [KENNEL_PLUGIN_READY] frame with
    the plugin id and the information before it reads any input, and from
    there behaves as [command_loop]. *)
Theorem run_announces_ready_then_loops
    (fuel : nat) (w : world X) (cfg : jsonval) (info : ModuleInfo)
    (s' : pstate X)
    (config_ok :
       json_loads (environ_get environ "KENNEL_PLUGIN_CONFIG" "{}") = Ok cfg)
    (started : startup (proj1_sig cfg) (plug w) info s')
    (serializable : is_json (ModuleInfo_to_dict info) = true) :
  run fuel w =
    command_loop fuel
      {| plug := s'; stdin := stdin w;
         stdout := stdout w ++ [ready_frame info];
         calls := calls w ++ [CInit (proj1_sig cfg); CStart; CGetInfo] |}.
Proof.
  destruct started as [s1 s2 Hi Hs Hg].
  unfold run. cbv zeta. run_py.
  unfold json_dumps. cbn [first_unserializable].
  apply first_unserializable_is_json in serializable.
  cbn [ModuleInfo_to_dict] in serializable. rewrite serializable.
  norm_world. rewrite <- !app_assoc. cbn [app].
  match goal with
  | |- match ?c with _ => _ end = _ => destruct c as [[r w1]|] eqn:E
  end; (etransitivity; [|symmetry; exact E]); [|reflexivity].
  destruct (command_loop_outcome _ _ E) as [-> | ->]; reflexivity.
Qed.

(** When the configuration of the environment is not JSON, [run] calls
    no method of the plugin, not even [init()]: it prints one
    [KENNEL_PLUGIN_ERROR] frame with the decoder's message and leaves
    through [sys.exit(1)]. *)
Theorem undecodable_config_fails_before_init
    (fuel : nat) (w : world X) (msg : string)
    (config_bad :
       json_loads (environ_get environ "KENNEL_PLUGIN_CONFIG" "{}") = Err msg) :
  run fuel w =
    Some (Raise (SystemExit 1),
          {| plug := plug w; stdin := stdin w;
             stdout := stdout w ++ [plugin_error_frame msg];
             calls := calls w |}).
Proof.
  unfold run. cbv zeta. now run_py.
Qed.

(** When [init()] and [start()] have returned and the readiness frame
    cannot be built, because [get_info()] raises or because [json.dumps]
    rejects the module information, [run] prints one
    [KENNEL_PLUGIN_ERROR] frame and leaves through [sys.exit(1)]: the
    plugin was started and [stop()] is not called. *)
Theorem readiness_failure_skips_stop
    (fuel : nat) (w : world X) (cfg : jsonval) (msg : string)
    (s1 s2 s3 : pstate X)
    (config_ok :
       json_loads (environ_get environ "KENNEL_PLUGIN_CONFIG" "{}") = Ok cfg)
    (init_ok : init (proj1_sig cfg) (plug w) = (Ok tt, s1))
    (start_ok : start s1 = (Ok tt, s2))
    (no_info :
       get_info s2 = (Err msg, s3) \/
       exists info cls,
         get_info s2 = (Ok info, s3) /\
         first_unserializable (ModuleInfo_to_dict info) = Some cls /\
         msg = ("Object of type " ++ cls ++ " is not JSON serializable")%string) :
  run fuel w =
    Some (Raise (SystemExit 1),
          {| plug := s3; stdin := stdin w;
             stdout := stdout w ++ [plugin_error_frame msg];
             calls := calls w ++ [CInit (proj1_sig cfg); CStart; CGetInfo] |}) /\
  stop_count (calls w ++ [CInit (proj1_sig cfg); CStart; CGetInfo])
  = stop_count (calls w).
Proof.
  split.
  - unfold run. cbv zeta.
    destruct no_info as [Hg | (info & cls & Hg & Hcls & ->)]; run_py.
    + unfold json_dumps. cbn [first_unserializable]. norm_world.
      rewrite <- !app_assoc. reflexivity.
    + unfold json_dumps at 1. cbn [first_unserializable].
      cbn [ModuleInfo_to_dict] in Hcls. rewrite Hcls.
      unfold json_dumps. cbn [first_unserializable]. norm_world.
      rewrite <- !app_assoc. reflexivity.
  - rewrite stop_count_app. cbn. lia.
Qed.

(** A run in which the first line of input is [KENNEL_STOP]: after a
    successful startup [run] returns normally, so the exit status is 0;
    the only frame printed is the readiness frame, [stop()] is called
    once, after [init()], [start()] and [get_info()], and the rest of the
    input is not read. *)
Theorem stop_line_ends_run_gracefully
    (fuel : nat) (w : world X) (cfg : jsonval) (info : ModuleInfo)
    (s1 : pstate X) (raw : string) (rest : list stdin_event)
    (config_ok :
       json_loads (environ_get environ "KENNEL_PLUGIN_CONFIG" "{}") = Ok cfg)
    (started : startup (proj1_sig cfg) (plug w) info s1)
    (serializable : is_json (ModuleInfo_to_dict info) = true)
    (stops : PyStr.strip raw = "KENNEL_STOP") :
  exists s2,
    run (S fuel) (set_stdin w (Line raw :: rest)) =
      Some (Ret tt,
            {| plug := s2; stdin := rest;
               stdout := stdout w ++ [ready_frame info];
               calls := calls w
                        ++ [CInit (proj1_sig cfg); CStart; CGetInfo; CStop] |}) /\
    exit_status (Ret tt) = Some 0%Z.
Proof.
  destruct started as [sa sb Hi Hs Hg].
  unfold run. cbv zeta. run_py.
  unfold json_dumps. cbn [first_unserializable].
  apply first_unserializable_is_json in serializable.
  cbn [ModuleInfo_to_dict] in serializable. rewrite serializable.
  norm_world. rewrite <- !app_assoc. cbn [app].
  match goal with
  | |- context [command_loop _ ?w1] =>
      destruct (stop_line_runs_stop_once fuel raw rest w1 stops) as [s2 E];
      change w1 with (set_stdin w1 (Line raw :: rest));
      rewrite E
  end.
  exists s2. split; [|reflexivity].
  cbn [stdout calls]. rewrite <- app_assoc. reflexivity.
Qed.


(** *** The replies to well-formed commands *)

(** For a [health_check] envelope the dispatcher calls [check_health()]
    and prints exactly one [KENNEL_HEALTH_RESPONSE] frame, the dictionary
    of the status returned; the [data] of the envelope plays no part,
    whatever it is. *)
Theorem health_check_ignores_data
    (command_json : string) (w : world X) (command : jsonval)
    (health : HealthStatus) (s' : pstate X)
    (decoded : json_loads command_json = Ok command)
    (is_health_check :
       py_get (proj1_sig command) "type" (PStr "") = Ok (PStr "health_check"))
    (checked : check_health (plug w) = (Ok health, s'))
    (serializable : is_json (HealthStatus_to_dict health) = true) :
  handle_command command_json w =
    Some (Ret tt, {| plug := s'; stdin := stdin w;
                     stdout := stdout w ++ [health_response_frame health];
                     calls := calls w ++ [CCheckHealth] |}).
Proof.
  destruct (py_get_data_of_type _ is_health_check) as [data Hd].
  unfold handle_command. run_py.
  rewrite (json_dumps_is_json _ serializable). reflexivity.
Qed.

Lemma handle_command_request
    (command_json : string) (w : world X) (command : jsonval)
    (data : pyval) (request : Request) (response : Response) (s' : pstate X) :
  json_loads command_json = Ok command ->
  py_get (proj1_sig command) "type" (PStr "") = Ok (PStr "request") ->
  py_get (proj1_sig command) "data" (PDict []) = Ok data ->
  Request_from_dict data = Ok request ->
  handle_request request (plug w) = (Ok response, s') ->
  is_json (PDict (Response_to_dict response)) = true ->
  handle_command command_json w =
    Some (Ret tt, {| plug := s'; stdin := stdin w;
                     stdout := stdout w ++ [response_frame response];
                     calls := calls w ++ [CHandleRequest request] |}).
Proof.
  intros decoded is_request has_data built answered serializable.
  unfold handle_command. run_py.
  rewrite (json_dumps_is_json _ serializable). reflexivity.
Qed.

(** A request whose [data] is not a mapping reaches no handler: the
    [AttributeError] of [Request.from_dict] is reported in one
    [KENNEL_ERROR] frame that names the type of the data. *)
Theorem request_data_must_be_a_mapping
    (command_json : string) (w : world X) (command : jsonval) (data : pyval)
    (decoded : json_loads command_json = Ok command)
    (is_request :
       py_get (proj1_sig command) "type" (PStr "") = Ok (PStr "request"))
    (has_data : py_get (proj1_sig command) "data" (PDict []) = Ok data)
    (not_mapping : forall d, data <> PDict d) :
  handle_command command_json w =
    Some (Ret tt,
          {| plug := plug w; stdin := stdin w;
             stdout := stdout w ++ [error_frame (attribute_error data "get")];
             calls := calls w |}).
Proof.
  unfold handle_command. run_py.
  assert (E : Request_from_dict data = Err (attribute_error data "get")).
  { destruct data; try reflexivity. now destruct (not_mapping d). }
  rewrite E. now run_py.
Qed.


Lemma handle_command_event
    (command_json : string) (w : world X) (command : jsonval)
    (data : pydict) (event : Event) (n : nat) (success : bool) (s' : pstate X) :
  json_loads command_json = Ok command ->
  py_get (proj1_sig command) "type" (PStr "") = Ok (PStr "event") ->
  py_get (proj1_sig command) "data" (PDict []) = Ok (PDict data) ->
  Event_from_dict time_source (PDict data) (now (plug w)) = (Ok event, n) ->
  handle_event event {| self := self (plug w); now := n |} = (Ok success, s') ->
  handle_command command_json w =
    Some (Ret tt, {| plug := s'; stdin := stdin w;
                     stdout := stdout w
                               ++ [event_response_frame (Event_id event) success];
                     calls := calls w ++ [CHandleEvent event] |}).
Proof.
  intros decoded is_event has_data built handled.
  destruct (Event_from_dict_mapping _ _ built) as [Hid _].
  assert (Hj : is_json (Event_id event) = true).
  { eapply py_get_is_json; [| |exact Hid]; [|reflexivity].
    eapply py_get_is_json; [| |exact has_data]; [|reflexivity].
    exact (proj2_sig command). }
  unfold handle_command. run_py.
  unfold json_dumps. cbn [first_unserializable].
  apply first_unserializable_is_json in Hj. rewrite Hj. reflexivity.
Qed.

End RunnerFacts.

(** ** The theorems at sample inputs *)

Import Samples.

(** C3 fails as stated: for the unknown type [foo] the one frame printed
    is the [KENNEL_ERROR] of an [AttributeError] raised inside the
    dispatcher ([Logger] has a method [warn] and no method [warning]);
    its message does not name the type. *)
Lemma unknown_type_frame_does_not_name_the_type :
  let msg := "'Logger' object has no attribute 'warning'" in
  handle_command forward_clock loads (module := base_module) unknown_foo
    (base_world []) =
    Some (Ret tt, add_stdout (base_world []) (error_frame msg)) /\
  PyStr.contains msg "foo" = false /\
  PyStr.contains msg "unknown" = false.
Proof. cbv zeta. split; [|split]; vm_compute; reflexivity. Qed.

(** The type [foo] with the handlers of [BaseModule]. *)
Lemma unknown_type_reaches_no_handler_witness :
  exists out : list frame,
    (length out <= 1)%nat /\
    Forall (fun f => tag f = "KENNEL_ERROR") out /\
    handle_command forward_clock loads (module := base_module) unknown_foo
      (base_world []) =
      Some (Ret tt, {| plug := plug (base_world []); stdin := [];
                       stdout := out; calls := [] |}).
Proof.
  destruct (@unknown_type_reaches_no_handler forward_clock loads
              BaseModule_attrs base_module unknown_foo (base_world [])
              unknown_foo_value (PStr "foo")
              eq_refl eq_refl eq_refl eq_refl eq_refl)
    as (out & Hlen & Htag & Hcmd & _).
  exists out. repeat split; assumption.
Defined.

(** C4 fails as stated: the runner prints the [Response] as the handler
    returned it; a handler that answers under another id than the
    request's gets a frame with that other id. *)
Lemma response_id_differs_from_request_id :
  exists d : pydict,
    handle_command forward_clock loads (module := FixedIdPlugin) request_1
      (unit_world []) =
      Some (Ret tt,
            {| plug := plug (unit_world []); stdin := [];
               stdout := [{| tag := "KENNEL_RESPONSE"; body := PDict d |}];
               calls := [CHandleRequest request_1_request] |}) /\
    Request_id request_1_request = PStr "1" /\
    lookup "id" d = Some (PStr "fixed") /\
    PStr "fixed" <> PStr "1".
Proof.
  eexists. split; [vm_compute; reflexivity|].
  split; [reflexivity|]. split; [reflexivity|]. discriminate.
Qed.

(** The request with id 1 answered by [BaseModule.handle_request]. *)
Lemma response_frame_carries_handler_id_witness :
  handle_command forward_clock loads (module := base_module) request_1
    (base_world []) =
    Some (Ret tt,
          {| plug := plug (base_world []); stdin := [];
             stdout := [response_frame request_1_response];
             calls := [CHandleRequest request_1_request] |}) /\
  lookup "id" (Response_to_dict request_1_response) = Some (PStr "1").
Proof.
  destruct (@response_frame_carries_handler_id forward_clock loads
              BaseModule_attrs base_module request_1 (base_world [])
              request_1_value request_1_data (PStr "1") request_1_request
              request_1_response (plug (base_world []))
              eq_refl eq_refl eq_refl eq_refl eq_refl eq_refl eq_refl)
    as (_ & Hcmd & _ & Hid).
  split; [exact Hcmd | exact (Hid eq_refl)].
Defined.

(** A payload that is not JSON, and a request whose handler raises. *)
Lemma failed_command_yields_one_error_frame_witness :
  handle_command forward_clock loads (module := base_module) "not-json"
    (base_world []) =
    Some (Ret tt,
          {| plug := plug (base_world []); stdin := [];
             stdout := [error_frame "Expecting value: line 1 column 1 (char 0)"];
             calls := [] |}) /\
  handle_command forward_clock loads (module := FailingPlugin) request_1
    (unit_world []) =
    Some (Ret tt,
          {| plug := plug (unit_world []); stdin := [];
             stdout := [error_frame "request failed"];
             calls := [CHandleRequest request_1_request] |}).
Proof.
  split.
  - assert (F : command_failure forward_clock loads (module := base_module)
                  "not-json" (plug (base_world []))
                  "Expecting value: line 1 column 1 (char 0)" []
                  (plug (base_world [])))
      by (apply Malformed; reflexivity).
    exact (proj1 (failed_command_yields_one_error_frame (base_world []) F)).
  - assert (F : command_failure forward_clock loads (module := FailingPlugin)
                  request_1 (plug (unit_world []))
                  "request failed" [CHandleRequest request_1_request]
                  (plug (unit_world [])))
      by (eapply RequestRaises with (command := request_1_value)
                                    (data := PDict request_1_data);
          reflexivity).
    exact (proj1 (failed_command_yields_one_error_frame (unit_world []) F)).
Defined.

(** A plugin whose [init()] raises, started with the default
    configuration. *)
Lemma startup_failure_exits_with_1_witness :
  let environ := [("KENNEL_PLUGIN_ID", "p1")] in
  run forward_clock loads environ (module := FailingPlugin) 5
    (unit_world [Line "KENNEL_STOP"]) =
    Some (Raise (SystemExit 1),
          {| plug := plug (unit_world []);
             stdin := [Line "KENNEL_STOP"];
             stdout := [{| tag := "KENNEL_PLUGIN_ERROR";
                           body := PDict [("status", PStr "error");
                                          ("plugin_id", PStr "p1");
                                          ("error", PStr "init failed")] |}];
             calls := [CInit (PDict [])] |}).
Proof.
  cbv zeta.
  assert (F : startup_failure (module := FailingPlugin) (proj1_sig empty_config)
                (plug (unit_world [Line "KENNEL_STOP"]))
                "init failed" [CInit (PDict [])] (plug (unit_world [])))
    by (apply InitRaises; reflexivity).
  exact (proj1 (@startup_failure_exits_with_1 forward_clock loads
                  [("KENNEL_PLUGIN_ID", "p1")] unit FailingPlugin 5
                  (unit_world [Line "KENNEL_STOP"]) empty_config
                  "init failed" [CInit (PDict [])] (plug (unit_world []))
                  eq_refl F)).
Defined.

(** The event with id 7 and no timestamp, handled by
    [BaseModule.handle_event]. *)
Lemma event_yields_one_event_response_witness :
  handle_command forward_clock loads (module := base_module) event_7
    (base_world []) =
    Some (Ret tt,
          {| plug := {| self := self (plug (base_world [])); now := 2 |};
             stdin := [];
             stdout := [event_response_frame (PStr "7") false];
             calls := [CHandleEvent event_7_event] |}) /\
  Event_timestamp event_7_event = PInt (millis (forward_clock 1)).
Proof.
  destruct (@event_yields_one_event_response forward_clock loads
              BaseModule_attrs base_module event_7 (base_world [])
              event_7_value event_7_data event_7_event 2 false
              {| self := self (plug (base_world [])); now := 2 |}
              eq_refl eq_refl eq_refl eq_refl eq_refl)
    as (Hcmd & _ & _).
  split; [exact Hcmd | reflexivity].
Defined.

Lemma forward_clock_forward (i j : nat) :
  (i <= j)%nat -> forward_clock i <= forward_clock j.
Proof.
  intros H. unfold forward_clock.
  assert (Hz : inject_Z (Z.of_nat i) <= inject_Z (Z.of_nat j)).
  { rewrite <- Zle_Qle. lia. }
  lra.
Qed.

(** Two successive health checks of a started module under a clock that
    runs forward. *)
Lemma check_health_uptime_with_forward_clock_witness :
  let s1 := snd (Module_start forward_clock (fresh forward_clock base_attrs)) in
  let s2 := snd (Module_check_health forward_clock s1) in
  exists ha hb ua ub,
    fst (Module_check_health forward_clock s1) = Ok ha /\
    fst (Module_check_health forward_clock s2) = Ok hb /\
    HealthStatus_status ha = PStr "healthy" /\
    HealthStatus_status hb = PStr "healthy" /\
    uptime_of ha = Some ua /\
    uptime_of hb = Some ub /\
    0 <= ua /\ ua <= ub.
Proof.
  cbv zeta.
  apply (@check_health_uptime_with_forward_clock forward_clock BaseModule_attrs
           (fresh forward_clock base_attrs)
           (snd (Module_start forward_clock (fresh forward_clock base_attrs)))
           (snd (Module_check_health forward_clock
                   (snd (Module_start forward_clock
                           (fresh forward_clock base_attrs)))))
           forward_clock_forward eq_refl eq_refl).
  - apply le_n.
  - apply le_n.
Defined.

(** A plugin whose [stop()] raises, stopped by SIGTERM and by a
    [KENNEL_STOP] line. *)
Lemma stop_exception_is_absorbed_witness :
  let w := unit_world [] in
  let w1 := {| plug := plug w; stdin := []; stdout := [];
               calls := [CStop] |} in
  stop (Module := FailingPlugin) (plug w) = (Err "stop failed", plug w) /\
  _handle_signal (module := FailingPlugin) (A := unit) 15 w =
    Some (Raise (SystemExit 0), w1) /\
  command_loop forward_clock loads (module := FailingPlugin) 1
    (set_stdin w [Line "KENNEL_STOP"]) = Some (Ret tt, w1).
Proof.
  cbv zeta.
  destruct (@stop_exception_is_absorbed forward_clock loads [] unit FailingPlugin
              (unit_world []) "stop failed" (plug (unit_world [])) eq_refl)
    as (_ & Hsig & Hstop & _).
  split; [reflexivity|]. split.
  - exact (proj1 (Hsig 15%Z)).
  - exact (proj1 (Hstop 0%nat "KENNEL_STOP" [] eq_refl)).
Defined.

(** ** The value classes *)

Lemma py_or_empty_mapping (v : pyval) :
  truthy (py_or v (PDict [])) = true \/ py_or v (PDict []) = PDict [].
Proof.
  unfold py_or. destruct (truthy v) eqn:E; [left; exact E | now right].
Qed.

(** [Request.from_dict] builds a request from every mapping and from
    nothing else: a key left out takes its default ([""], [{}], 30000),
    [params] and [metadata] are never left falsy (an explicit [null]
    becomes the empty mapping), while [timeout] is taken as given; on a
    value that is not a mapping it raises the [AttributeError] of the
    missing [get]. *)
Theorem Request_from_dict_defaults (data : pyval) :
  match data with
  | PDict d =>
      exists request,
        Request_from_dict data = Ok request /\
        Request_id request
        = match lookup "id" d with Some v => v | None => PStr "" end /\
        Request_action request
        = match lookup "action" d with Some v => v | None => PStr "" end /\
        Request_timeout request
        = match lookup "timeout" d with Some v => v | None => PInt 30000 end /\
        (truthy (Request_params request) = true \/
         Request_params request = PDict []) /\
        (truthy (Request_metadata request) = true \/
         Request_metadata request = PDict [])
  | _ => Request_from_dict data = Err (attribute_error data "get")
  end.
Proof.
  destruct data; try reflexivity.
  eexists. split; [reflexivity|]. cbn.
  repeat split; apply py_or_empty_mapping.
Qed.

Section EventFacts.

Variable time_source : nat -> Q.

(** An [Event] whose timestamp is truthy and whose [data] and [metadata]
    are as [Event.__init__] leaves them is rebuilt by [Event.from_dict]
    from its own [to_dict]; the rebuilding reads the clock once, for the
    default it does not use. *)
Theorem Event_from_dict_to_dict (e : Event) (n : nat)
    (stamped : truthy (Event_timestamp e) = true)
    (data_kept : py_or (Event_data e) (PDict []) = Event_data e)
    (metadata_kept : py_or (Event_metadata e) (PDict []) = Event_metadata e) :
  Event_from_dict time_source (Event_to_dict e) n = (Ok e, S n).
Proof.
  unfold Event_from_dict, Event_init, timestamp_or_now, cbind, clift, cret,
    time_time.
  cbn [Event_to_dict py_get lookup String.eqb Ascii.eqb Bool.eqb].
  rewrite stamped, data_kept, metadata_kept.
  now destruct e.
Qed.

(** The timestamp of an [Event] built from a mapping is the [timestamp]
    of the mapping when that one is truthy; when it is left out, [null]
    or 0, it is a reading of the clock taken during the construction, in
    milliseconds. The clock is read at least once in either case. *)
Theorem Event_timestamp_given_or_read
    (d : pydict) (n0 n : nat) (event : Event)
    (built : Event_from_dict time_source (PDict d) n0 = (Ok event, n)) :
  (n0 < n)%nat /\
  ((exists t, lookup "timestamp" d = Some t /\ truthy t = true /\
              Event_timestamp event = t) \/
   (exists k, (n0 <= k < n)%nat /\
              (forall t, lookup "timestamp" d = Some t -> truthy t = false) /\
              Event_timestamp event = PInt (millis (time_source k)))).
Proof.
  revert built.
  unfold Event_from_dict, Event_init, timestamp_or_now, cbind, clift, cret,
    time_time.
  cbn [py_get].
  destruct (lookup "timestamp" d) as [ts|] eqn:Ets.
  - destruct (truthy ts) eqn:Et; intros H; injection H as <- <-;
      (split; [lia|]).
    + left. now exists ts.
    + right. exists (S n0). cbn. repeat split; try lia.
      intros t Ht. now injection Ht as <-.
  - destruct (truthy (PInt (millis (time_source n0)))) eqn:Et;
      intros H; injection H as <- <-; (split; [lia|]); right.
    + exists n0. cbn. repeat split; try lia. discriminate.
    + exists (S n0). cbn. repeat split; try lia. discriminate.
Qed.

End EventFacts.

(** ** [BaseModule] behind the dispatcher *)

Section BaseModuleFacts.

Variable time_source : nat -> Q.
Variable json_loads : string -> result jsonval.
Variable message : pyval -> string.

Local Abbreviation base := (BaseModule time_source message).

(** A plugin that keeps the handlers of [BaseModule] answers every
    request whose data is a mapping with exactly one [KENNEL_RESPONSE]
    frame: the id of the request, [success] false, empty [data] and
    [metadata], and the error [not_implemented]; its state does not
    change. *)
Theorem BaseModule_answers_not_implemented
    (command_json : string) (w : world BaseModule_attrs) (command : jsonval)
    (data : pydict)
    (decoded : json_loads command_json = Ok command)
    (is_request :
       py_get (proj1_sig command) "type" (PStr "") = Ok (PStr "request"))
    (has_data :
       py_get (proj1_sig command) "data" (PDict []) = Ok (PDict data)) :
  exists request,
    Request_from_dict (PDict data) = Ok request /\
    handle_command time_source json_loads (module := base) command_json w =
      Some (Ret tt,
            {| plug := plug w; stdin := stdin w;
               stdout :=
                 stdout w
                 ++ [{| tag := "KENNEL_RESPONSE";
                        body :=
                          PDict
                            [("id", match lookup "id" data with
                                    | Some v => v
                                    | None => PStr ""
                                    end);
                             ("success", PBool false);
                             ("data", PDict []);
                             ("metadata", PDict []);
                             ("error",
                              PDict
                                [("code", PStr "not_implemented");
                                 ("message",
                                  PStr (message (Request_action request)))])]
                     |}];
               calls := calls w ++ [CHandleRequest request] |}).
Proof.
  assert (Hcase : exists request,
             Request_from_dict (PDict data) = Ok request /\
             Request_id request
             = match lookup "id" data with Some v => v | None => PStr "" end)
    by (eexists; split; reflexivity).
  destruct Hcase as (request & Hreq & Hid).
  exists request. split; [exact Hreq|].
  assert (Hj : is_json (Request_id request) = true).
  { rewrite Hid.
    assert (Hd : is_json (PDict data) = true).
    { eapply py_get_is_json; [| |exact has_data]; [|reflexivity].
      exact (proj2_sig command). }
    destruct (lookup "id" data) eqn:E; [|reflexivity].
    eapply is_json_lookup; eauto. }
  rewrite <- Hid.
  pose (response :=
          Response_init (Request_id request) (PBool false) PNone
            (PDict [("code", PStr "not_implemented");
                    ("message", PStr (message (Request_action request)))])
            PNone).
  rewrite (@handle_command_request time_source json_loads _ base command_json
             w command (PDict data) request response (plug w)
             decoded is_request has_data Hreq eq_refl).
  - reflexivity.
  - cbn. unfold is_json in *. cbn [first_unserializable].
    now destruct (first_unserializable (Request_id request)).
Qed.

(** A plugin that keeps the handlers of [BaseModule] answers every event
    whose data is a mapping with exactly one [KENNEL_EVENT_RESPONSE]
    frame, which carries the id of the event and [success] false. *)
Theorem BaseModule_declines_events
    (command_json : string) (w : world BaseModule_attrs) (command : jsonval)
    (data : pydict)
    (decoded : json_loads command_json = Ok command)
    (is_event :
       py_get (proj1_sig command) "type" (PStr "") = Ok (PStr "event"))
    (has_data :
       py_get (proj1_sig command) "data" (PDict []) = Ok (PDict data)) :
  exists event n,
    Event_from_dict time_source (PDict data) (now (plug w)) = (Ok event, n) /\
    handle_command time_source json_loads (module := base) command_json w =
      Some (Ret tt,
            {| plug := {| self := self (plug w); now := n |};
               stdin := stdin w;
               stdout :=
                 stdout w
                 ++ [event_response_frame
                       (match lookup "id" data with
                        | Some v => v
                        | None => PStr ""
                        end) false];
               calls := calls w ++ [CHandleEvent event] |}).
Proof.
  destruct (Event_from_dict time_source (PDict data) (now (plug w)))
    as [[event|msg] n] eqn:E.
  2:{ revert E.
      unfold Event_from_dict, Event_init, timestamp_or_now, cbind, clift,
        cret, time_time. cbn [py_get].
      repeat match goal with
             | |- context [truthy ?v] => destruct (truthy v)
             end; discriminate. }
  exists event, n. split; [reflexivity|].
  destruct (Event_from_dict_mapping _ _ _ E) as [Hid _].
  cbn [py_get] in Hid. injection Hid as Hid. rewrite Hid.
  eapply handle_command_event; eauto.
Qed.

End BaseModuleFacts.

(** ** Truncation to whole numbers *)

Lemma int_of_float_common (n : Z) (d e : positive) :
  int_of_float (n # d) = Z.quot (n * Z.pos e) (Z.pos d * Z.pos e).
Proof.
  unfold int_of_float. cbn [Qnum Qden].
  rewrite Z.quot_mul_cancel_r; lia.
Qed.

(** [int()] on floats keeps the order, and so does [int(t * 1000)]: the
    millisecond timestamps that [Event] and [HealthStatus] take from a
    clock that does not go backwards do not go backwards either. *)
Theorem millis_monotone (t1 t2 : Q) :
  t1 <= t2 -> (millis t1 <= millis t2)%Z.
Proof.
  intros H. unfold millis.
  assert (H' : t1 * 1000 <= t2 * 1000) by lra.
  destruct (t1 * 1000) as [n1 d1], (t2 * 1000) as [n2 d2].
  rewrite (int_of_float_common n1 d1 d2).
  rewrite (int_of_float_common n2 d2 d1).
  rewrite (Z.mul_comm (Z.pos d2) (Z.pos d1)).
  apply Z.quot_le_mono; [lia|].
  unfold Qle in H'. cbn [Qnum Qden] in H'. exact H'.
Qed.

(** ** [ConfigHelper] *)

Lemma lower_char_idempotent (c : ascii) :
  PyText.lower_char (PyText.lower_char c) = PyText.lower_char c.
Proof.
  destruct c as [[] [] [] [] [] [] [] []]; reflexivity.
Qed.

Lemma lower_idempotent (s : string) : PyText.lower (PyText.lower s) = PyText.lower s.
Proof.
  induction s as [|c s IH]; cbn; [reflexivity|].
  now rewrite lower_char_idempotent, IH.
Qed.

(** The names of the log levels and the words that [get_bool] takes for
    true are read without regard to case: putting the text in lower case
    beforehand changes neither the level [create_logger] chooses nor the
    boolean [get_bool] finds. *)
Theorem level_names_and_truthy_words_ignore_case (s : string) :
  create_logger_level (PyText.lower s) = create_logger_level s /\
  truthy_word (PyText.lower s) = truthy_word s.
Proof.
  unfold create_logger_level, truthy_word.
  now rewrite lower_idempotent.
Qed.

Lemma split_dot_not_nil (s : string) : PyText.split_dot s <> [].
Proof.
  induction s as [|c s IH]; cbn; [discriminate|].
  destruct (Ascii.eqb c "."); [discriminate|].
  now destruct (PyText.split_dot s).
Qed.

(** [path.split(".")] loses nothing: it gives at least one segment, no
    segment contains a dot, and joining the segments with dots gives the
    path back. *)
Theorem split_dot_join_dot (path : string) :
  PyText.join_dot (PyText.split_dot path) = path /\
  PyText.split_dot path <> [] /\
  Forall (fun segment => PyText.has_dot segment = false) (PyText.split_dot path).
Proof.
  split; [|split; [apply split_dot_not_nil|]].
  - induction path as [|c s IH]; [reflexivity|]. cbn [PyText.split_dot].
    pose proof (split_dot_not_nil s) as Hn.
    destruct (Ascii.eqb_spec c ".") as [->|_].
    + destruct (PyText.split_dot s) as [|h t]; [contradiction|].
      change (PyText.join_dot (EmptyString :: h :: t))
        with (String "." (PyText.join_dot (h :: t))).
      now rewrite IH.
    + destruct (PyText.split_dot s) as [|h t]; [contradiction|].
      destruct t as [|h' t].
      * cbn in *. now rewrite IH.
      * change (PyText.join_dot (String c h :: h' :: t))
          with (String c (PyText.join_dot (h :: h' :: t))).
        now rewrite IH.
  - induction path as [|c s IH]; cbn [PyText.split_dot].
    + now repeat constructor.
    + destruct (Ascii.eqb c ".") eqn:E.
      * constructor; [reflexivity | exact IH].
      * destruct (PyText.split_dot s) as [|h t].
        -- constructor; [|constructor]. cbn. now rewrite E.
        -- inversion IH as [|? ? Hh Ht]; subst.
           constructor; [|exact Ht]. cbn. now rewrite E, Hh.
Qed.

Lemma split_dot_plain (key : string) :
  PyText.has_dot key = false -> PyText.split_dot key = [key].
Proof.
  induction key as [|c s IH]; cbn; [reflexivity|].
  destruct (Ascii.eqb c "."); [discriminate|]. cbn.
  intros H. now rewrite IH.
Qed.

Lemma split_dot_prefix (key path : string) :
  PyText.has_dot key = false ->
  PyText.split_dot (key ++ "." ++ path) = key :: PyText.split_dot path.
Proof.
  change ("." ++ path)%string with (String "."%char path).
  induction key as [|c s IH]; cbn [String.append PyText.has_dot PyText.split_dot].
  - reflexivity.
  - destruct (Ascii.eqb c "."); [discriminate|]. cbn [orb].
    intros H. now rewrite (IH H).
Qed.

Section ConfigFacts.

Variable int_of_str : string -> option Z.

(** [get_nested] goes down one mapping for each segment of the path:
    when the first segment names a mapping the lookup continues inside it
    with the rest of the path, and when it names nothing, or a value that
    is not a mapping, the result is the default. A key of the
    configuration that itself contains a dot is therefore not reached. *)
Theorem get_nested_descends
    (config : pydict) (key path : string) (default_value : pyval)
    (plain : PyText.has_dot key = false) :
  get_nested config (key ++ "." ++ path) default_value =
    match lookup key config with
    | Some (PDict inner) => get_nested inner path default_value
    | _ => default_value
    end.
Proof.
  unfold get_nested. rewrite (split_dot_prefix key path plain). cbn [walk].
  destruct (lookup key config) as [v|]; [|reflexivity].
  destruct v; try reflexivity;
    pose proof (split_dot_not_nil path) as Hn;
    destruct (PyText.split_dot path); try contradiction; reflexivity.
Qed.

(** On a key without a dot the accessors by path and the accessors by
    key agree, for strings, integers, booleans, mappings and lists. *)
Theorem nested_accessors_agree_on_plain_keys
    (config : pydict) (key : string) (plain : PyText.has_dot key = false) :
  (forall d, get_nested_string config key d = get_string config key d) /\
  (forall d, get_nested_int int_of_str config key d
             = get_int int_of_str config key d) /\
  (forall d, get_nested_bool config key d = get_bool config key d) /\
  (forall d, get_nested_dict config key d = get_dict config key d) /\
  (forall d, get_nested_list config key d = get_list config key d).
Proof.
  unfold get_nested_string, get_nested_int, get_nested_bool, get_nested_dict,
    get_nested_list, get_string, get_int, get_bool, get_dict, get_list,
    get_nested.
  rewrite (split_dot_plain key plain). cbn [walk].
  repeat split; intros d; destruct (lookup key config) as [v|]; reflexivity.
Qed.

(** [get_string_list] gives the strings of [get_list], in their order;
    and with a default that is not empty its result is never empty: a
    list without strings cannot be told from a missing key. *)
Theorem get_string_list_of_get_list (config : pydict) (key : string) :
  map PStr (get_string_list config key None)
  = filter is_str (get_list config key None) /\
  forall (s : string) (l : list string),
    get_string_list config key (Some (s :: l)) <> [].
Proof.
  unfold get_string_list, get_list, or_empty.
  assert (F : forall l : list pyval,
             map PStr
               (flat_map (fun item => match item with PStr s => [s] | _ => [] end) l)
             = filter is_str l).
  { induction l as [|x l IH]; [reflexivity|].
    destruct x; cbn; try exact IH. now rewrite IH. }
  split.
  - rewrite <- F.
    destruct (lookup key config) as [[]|]; cbn; try reflexivity.
    now destruct (flat_map _ l).
  - intros s l.
    match goal with
    | |- context [flat_map ?f ?v] => destruct (flat_map f v)
    end; discriminate.
Qed.

(** On a float [get_int] truncates towards zero: the integer it returns
    lies between zero and the value, less than one away from it. *)
Theorem get_int_truncates_floats
    (config : pydict) (key : string) (q : Q) (default_value : Z)
    (found : lookup key config = Some (PFloat q)) :
  exists z : Z,
    get_int int_of_str config key default_value = PInt z /\
    (0 <= q -> inject_Z z <= q /\ q < inject_Z z + 1) /\
    (q <= 0 -> q <= inject_Z z /\ inject_Z z - 1 < q).
Proof.
  unfold get_int. rewrite found. cbn [as_int].
  exists (int_of_float q). split; [reflexivity|].
  destruct q as [n d]. unfold int_of_float. cbn [Qnum Qden].
  pose proof (Z.quot_rem' n (Z.pos d)) as Hqr.
  unfold Qminus. unfold Qle, Qlt, Qplus, Qopp, inject_Z.
  cbn [Qnum Qden Pos.mul]. rewrite ?Z.mul_1_r.
  split; intros Hs.
  - assert (Hn : (0 <= n)%Z) by lia.
    pose proof (Z.rem_bound_pos n (Z.pos d) Hn ltac:(lia)) as Hr.
    split; nia.
  - assert (Hn : (n <= 0)%Z) by lia.
    pose proof (Z.rem_bound_pos_neg n (Z.pos d) ltac:(lia) Hn) as Hr.
    split; nia.
Qed.

End ConfigFacts.

(** ** The further theorems at sample inputs *)

(** A line of other text between two commands. *)
Lemma unrecognized_line_is_skipped_witness :
  loop_body forward_clock loads (module := base_module)
    (set_stdin (base_world []) [Line "hello"; Line stop_line]) =
    Some (Ret Continue, set_stdin (base_world []) [Line stop_line]).
Proof.
  refine (proj1 (@unrecognized_line_is_skipped forward_clock loads
                   BaseModule_attrs base_module 0 "hello" [Line stop_line]
                   (base_world []) eq_refl _)).
  discriminate.
Defined.

(** A request, a health check and an unknown type, then the stop. *)
Lemma commands_then_stop_terminates_witness :
  exists w',
    command_loop forward_clock loads (module := base_module) 4
      (base_world [Line (line_of request_1); Line (line_of health_check);
                   Line (line_of unknown_foo); Line stop_line;
                   Line (line_of request_1)]) = Some (Ret tt, w') /\
    stdin w' = [Line (line_of request_1)] /\
    length (stdout w') = 3%nat /\
    stop_count (calls w') = 1%nat.
Proof.
  apply (@commands_then_stop_terminates forward_clock loads BaseModule_attrs
           base_module
           [line_of request_1; line_of health_check; line_of unknown_foo]
           stop_line [Line (line_of request_1)] (base_world [])).
  - repeat constructor.
  - reflexivity.
Defined.

(** [BaseModule] started with the default configuration. *)
Lemma run_announces_ready_then_loops_witness :
  run forward_clock loads [] (module := base_module) 3 (base_world []) =
    command_loop forward_clock loads (module := base_module) 3
      {| plug := {| self := {| config := PDict [];
                               start_time := forward_clock 1;
                               ext := base_attrs |};
                    now := 2 |};
         stdin := [];
         stdout := [ready_frame [] base_info];
         calls := [CInit (PDict []); CStart; CGetInfo] |}.
Proof.
  apply (@run_announces_ready_then_loops forward_clock loads []
           BaseModule_attrs base_module 3 (base_world []) empty_config
           base_info).
  - reflexivity.
  - eapply Started; reflexivity.
  - reflexivity.
Defined.

(** A configuration in the environment that is not JSON. *)
Lemma undecodable_config_fails_before_init_witness :
  run forward_clock loads [("KENNEL_PLUGIN_CONFIG", "not-json")]
    (module := base_module) 3 (base_world []) =
    Some (Raise (SystemExit 1),
          {| plug := plug (base_world []); stdin := [];
             stdout := [plugin_error_frame
                          [("KENNEL_PLUGIN_CONFIG", "not-json")]
                          "Expecting value: line 1 column 1 (char 0)"];
             calls := [] |}).
Proof.
  exact (@undecodable_config_fails_before_init forward_clock loads
           [("KENNEL_PLUGIN_CONFIG", "not-json")] BaseModule_attrs base_module
           3 (base_world []) "Expecting value: line 1 column 1 (char 0)"
           eq_refl).
Defined.

(** A plugin whose version is a [datetime]. *)
Lemma readiness_failure_skips_stop_witness :
  run forward_clock loads [] (module := OpaqueInfoPlugin) 3 (unit_world []) =
    Some (Raise (SystemExit 1),
          {| plug := plug (unit_world []); stdin := [];
             stdout := [plugin_error_frame []
                          "Object of type datetime is not JSON serializable"];
             calls := [CInit (PDict []); CStart; CGetInfo] |}).
Proof.
  refine (proj1 (@readiness_failure_skips_stop forward_clock loads []
                   unit OpaqueInfoPlugin 3 (unit_world []) empty_config
                   "Object of type datetime is not JSON serializable"
                   (plug (unit_world [])) (plug (unit_world []))
                   (plug (unit_world [])) eq_refl eq_refl eq_refl _)).
  right. do 2 eexists. repeat split.
Defined.

(** [BaseModule] stopped by the first line of input. *)
Lemma stop_line_ends_run_gracefully_witness :
  exists s2,
    run forward_clock loads [] (module := base_module) 1
      (base_world [Line stop_line; Line (line_of request_1)]) =
      Some (Ret tt,
            {| plug := s2; stdin := [Line (line_of request_1)];
               stdout := [ready_frame [] base_info];
               calls := [CInit (PDict []); CStart; CGetInfo; CStop] |}).
Proof.
  destruct (@stop_line_ends_run_gracefully forward_clock loads []
              BaseModule_attrs base_module 0 (base_world []) empty_config
              base_info
              {| self := {| config := PDict [];
                            start_time := forward_clock 1;
                            ext := base_attrs |};
                 now := 2 |}
              stop_line [Line (line_of request_1)] eq_refl
              ltac:(eapply Started; reflexivity) eq_refl eq_refl)
    as (s2 & H & _).
  exists s2. exact H.
Defined.

(** A health check whose [data] is the number 5. *)
Lemma health_check_ignores_data_witness :
  exists health s',
    check_health (Module := base_module) (plug (base_world [])) = (Ok health, s') /\
    handle_command forward_clock more_loads (module := base_module)
      health_check_5 (base_world []) =
      Some (Ret tt,
            {| plug := s'; stdin := [];
               stdout := [health_response_frame health];
               calls := [CCheckHealth] |}).
Proof.
  do 2 eexists. split; [reflexivity|].
  apply (@health_check_ignores_data forward_clock more_loads BaseModule_attrs
           base_module health_check_5 (base_world []) health_check_5_value);
    reflexivity.
Defined.

(** A request whose [data] is [null]. *)
Lemma request_data_must_be_a_mapping_witness :
  handle_command forward_clock more_loads (module := base_module)
    request_null (base_world []) =
    Some (Ret tt,
          {| plug := plug (base_world []); stdin := [];
             stdout := [error_frame
                          "'NoneType' object has no attribute 'get'"];
             calls := [] |}).
Proof.
  refine (@request_data_must_be_a_mapping forward_clock more_loads
            BaseModule_attrs base_module request_null (base_world [])
            request_null_value PNone eq_refl eq_refl eq_refl _).
  discriminate.
Defined.

(** The event of [event_7], which carries its timestamp. *)
Lemma Event_from_dict_to_dict_witness :
  Event_from_dict forward_clock (Event_to_dict event_7_event) 5%nat
  = (Ok event_7_event, 6%nat).
Proof.
  exact (@Event_from_dict_to_dict forward_clock event_7_event 5%nat
           eq_refl eq_refl eq_refl).
Defined.

(** The data of [event_7], which has no timestamp. *)
Lemma Event_timestamp_given_or_read_witness :
  exists k, (1 <= k < 2)%nat /\
            Event_timestamp event_7_event = PInt (millis (forward_clock k)).
Proof.
  destruct (@Event_timestamp_given_or_read forward_clock event_7_data
              1%nat 2%nat event_7_event eq_refl)
    as (_ & [(t & Ht & _) | (k & Hk & _ & Hts)]).
  - discriminate Ht.
  - exists k. split; assumption.
Defined.

(** The request with id 1. *)
Lemma BaseModule_answers_not_implemented_witness :
  exists request,
    Request_from_dict (PDict request_1_data) = Ok request /\
    handle_command forward_clock loads (module := base_module) request_1
      (base_world []) =
      Some (Ret tt,
            {| plug := plug (base_world []); stdin := [];
               stdout := [response_frame request_1_response];
               calls := [CHandleRequest request] |}).
Proof.
  destruct (@BaseModule_answers_not_implemented forward_clock loads
              not_implemented request_1 (base_world []) request_1_value
              request_1_data eq_refl eq_refl eq_refl)
    as (request & Hreq & Hcmd).
  exists request. split; [exact Hreq|].
  cbn in Hreq. injection Hreq as <-. exact Hcmd.
Defined.

(** The event with id 7. *)
Lemma BaseModule_declines_events_witness :
  exists event n,
    handle_command forward_clock loads (module := base_module) event_7
      (base_world []) =
      Some (Ret tt,
            {| plug := {| self := self (plug (base_world [])); now := n |};
               stdin := [];
               stdout := [event_response_frame (PStr "7") false];
               calls := [CHandleEvent event] |}).
Proof.
  destruct (@BaseModule_declines_events forward_clock loads not_implemented
              event_7 (base_world []) event_7_value event_7_data
              eq_refl eq_refl eq_refl)
    as (event & n & _ & Hcmd).
  exists event, n. exact Hcmd.
Defined.

(** Two readings of the forward clock. *)
Lemma millis_monotone_witness :
  (millis (forward_clock 1) <= millis (forward_clock 4))%Z.
Proof.
  apply millis_monotone. apply forward_clock_forward. repeat constructor.
Defined.

(** The port of the server in the sample configuration; the key
    [server.port] of the configuration itself is not the one found. *)
Lemma get_nested_descends_witness :
  get_nested sample_config "server.port" PNone = PInt 8080 /\
  lookup "server.port" sample_config = Some (PInt 1).
Proof.
  split; [|reflexivity].
  exact (@get_nested_descends sample_config "server" "port" PNone eq_refl).
Defined.

(** The key [name] of the sample configuration. *)
Lemma nested_accessors_agree_on_plain_keys_witness :
  get_nested_string sample_config "name" "none"
  = get_string sample_config "name" "none".
Proof.
  exact (proj1 (@nested_accessors_agree_on_plain_keys sample_int_of_str
                  sample_config "name" eq_refl) "none").
Defined.

(** The ratio -3.5 of the sample configuration is read as -3. *)
Lemma get_int_truncates_floats_witness :
  exists z : Z,
    get_int sample_int_of_str sample_config "ratio" 0 = PInt z /\
    (-7 # 2) <= inject_Z z /\ inject_Z z - 1 < (-7 # 2).
Proof.
  destruct (@get_int_truncates_floats sample_int_of_str sample_config "ratio"
              (-7 # 2) 0%Z eq_refl) as (z & Hz & _ & Hneg).
  exists z. split; [exact Hz|]. apply Hneg. discriminate.
Defined.
